(** * nd_federation_member: federation membership reconciliation

    A shallow embedding of [plugins/modules/nd_federation_member.py] and the
    properties of its [main] routine.  The module talks to a Nexus Dashboard
    through [NDModule]; that transport is kept abstract (a [Gateway]) and
    every call made through it is recorded, so that statements about which
    requests are issued, and in which order, are statements about the
    recorded list. *)

From Stdlib Require Import String Ascii List Bool NArith Arith Lia Permutation.
Import ListNotations.
Open Scope string_scope.
Open Scope list_scope.

(** ** Module parameters *)

(** [state=dict(type="str", default="present", choices=[...])] *)
Inductive State : Type := absent | present | query.

Definition State_eqb (a b : State) : bool :=
  match a, b with
  | absent, absent | present, present | query, query => true
  | _, _ => false
  end.

(** One element of the [clusters] option.  A sub-option that was not given
    is [None]; [cluster_login_domain] has a default and is always a string. *)
Record Cluster : Type := mkCluster {
  cluster_hostname : option string;
  cluster_username : option string;
  cluster_password : option string;
  cluster_login_domain : string
}.

Record Params : Type := mkParams {
  clusters : option (list Cluster);
  state : State;
  check_mode : bool
}.

(** ** Objects returned by the dashboard *)

(** An item of [/nexus/infra/api/platform/v1/clusters]: [spec.name]. *)
Record ClusterInfo : Type := mkClusterInfo { cluster_name : string }.

(** An item of the federation collection: [spec.name], [status.federationID]. *)
Record Federation : Type := mkFederation {
  federation_name : string;
  federationID : string
}.

(** An item of the member collection: [spec.host], [status.memberID]. *)
Record Member : Type := mkMember {
  host : string;
  memberID : string
}.

(** ** Requests *)

Inductive Method : Type := GET | POST | DELETE.

Definition Method_eqb (a b : Method) : bool :=
  match a, b with
  | GET, GET | POST, POST | DELETE, DELETE => true
  | _, _ => false
  end.

(** [cluster_payload = dict(spec=dict(host=..., userName=..., password=...,
    loginDomain=...))] *)
Record MemberPayload : Type := mkMemberPayload {
  p_host : option string;
  p_userName : option string;
  p_password : string;
  p_loginDomain : string
}.

Inductive Data : Type :=
| NoData
| FederationData (name : string)      (* {"spec": {"name": name}} *)
| MemberData (payload : MemberPayload).

Record Call : Type := mkCall {
  c_method : Method;
  c_path : string;
  c_data : Data
}.

(** [payload_dict]: a dict with at most the keys "DELETE" and "POST"; a key
    that was never assigned is [None]. *)
Record PayloadDict : Type := mkPayloadDict {
  pd_DELETE : option (list string);
  pd_POST : option (list MemberPayload)
}.

(** What [nd.existing], [nd.previous] and [nd.proposed] can hold here.
    [NDModule] creates the three as empty dicts. *)
Inductive Value : Type :=
| VEmpty                                  (* {} *)
| VItems (items : option (list Member))   (* the "items" of the member collection *)
| VMember (m : Member)                    (* one member object *)
| VPayloads (pd : PayloadDict).

Record Report : Type := mkReport {
  previous : Value;
  existing : Value;
  proposed : Value
}.

(** How a run ends: [nd.exit_json()], [nd.fail_json(msg=...)], or a Python
    exception nobody catches. *)
Inductive Outcome : Type :=
| ExitJson (r : Report)
| FailJson (msg : string)
| Uncaught (exc : string).

(** ** Python truthiness *)

Definition truthy_str (s : option string) : bool :=
  match s with
  | Some (String _ _) => true
  | _ => false
  end.

Definition truthy_list {A : Type} (l : option (list A)) : bool :=
  match l with
  | Some (_ :: _) => true
  | _ => false
  end.

Definition truthy_value (v : Value) : bool :=
  match v with
  | VEmpty => false
  | VItems items => truthy_list items
  | VMember _ => true
  | VPayloads pd =>
      match pd_DELETE pd, pd_POST pd with
      | None, None => false
      | _, _ => true
      end
  end.

(** ** base64.b64encode(str.encode(s)).decode("utf-8")

    A string is taken as its UTF-8 bytes. *)
Module Base64.

Definition alphabet : string :=
  "ABCDEFGHIJKLMNOPQRSTUVWXYZabcdefghijklmnopqrstuvwxyz0123456789+/".

Definition digit (n : N) : ascii :=
  match String.get (N.to_nat (n mod 64)) alphabet with
  | Some c => c
  | None => "="%char
  end.

Fixpoint encode_bytes (l : list N) : string :=
  match l with
  | [] => ""
  | [a] =>
      let n := (a * 65536)%N in
      String (digit (n / 262144)) (String (digit (n / 4096)) "==")
  | [a; b] =>
      let n := (a * 65536 + b * 256)%N in
      String (digit (n / 262144)) (String (digit (n / 4096))
        (String (digit (n / 64)) "="))
  | a :: b :: c :: rest =>
      let n := (a * 65536 + b * 256 + c)%N in
      String (digit (n / 262144)) (String (digit (n / 4096))
        (String (digit (n / 64)) (String (digit n) (encode_bytes rest))))
  end.

Definition b64encode (s : string) : string :=
  encode_bytes (map N_of_ascii (list_ascii_of_string s)).

End Base64.

(** ** The transport

    [NDModule] is not part of this module's sources.  Its two entry points
    used by [main] are [query_obj] (a GET returning a parsed object, of which
    [main] only reads "items") and [request] (here only POST and DELETE, the
    answer being ignored).  Either may end the run through [fail_json].  A
    collection whose answer carries no "items" (as with
    [ignore_not_found_error=True] on a 404) reads as [None]. *)
Inductive Reply (A : Type) : Type :=
| Replied (a : A)
| Rejected (msg : string).
Arguments Replied {A} a.
Arguments Rejected {A} msg.

Record Gateway (R : Type) : Type := mkGateway {
  list_clusters : R -> Reply (option (list ClusterInfo));
  list_federations : R -> Reply (option (list Federation));
  list_members : R -> Reply (option (list Member));
  perform : Method -> string -> Data -> R -> Reply R
}.
Arguments list_clusters {R} _ _.
Arguments list_federations {R} _ _.
Arguments list_members {R} _ _.
Arguments perform {R} _ _ _ _ _.

(** ** The monad of a run: remote state, the calls issued so far, early exit *)

Record ND (R : Type) : Type := mkND {
  remote : R;
  issued : list Call
}.
Arguments mkND {R} _ _.
Arguments remote {R} _.
Arguments issued {R} _.

Inductive Step (A : Type) : Type :=
| Next (a : A)
| Halt (o : Outcome).
Arguments Next {A} a.
Arguments Halt {A} o.

Definition M (R A : Type) : Type := ND R -> Step A * ND R.

Definition ret {R A : Type} (a : A) : M R A := fun s => (Next a, s).

Definition bind {R A B : Type} (m : M R A) (k : A -> M R B) : M R B :=
  fun s =>
    match m s with
    | (Next a, s') => k a s'
    | (Halt o, s') => (Halt o, s')
    end.

Declare Scope nd_scope.
Delimit Scope nd_scope with nd.
Notation "x <- m ;; k" := (bind m (fun x => k))
  (at level 61, m at next level, right associativity) : nd_scope.
Notation "' pat <- m ;; k" := (bind m (fun x => match x with pat => k end))
  (at level 61, pat pattern, m at next level, right associativity) : nd_scope.
Notation "m ;; k" := (bind m (fun _ => k))
  (at level 61, right associativity) : nd_scope.
Open Scope nd_scope.

Definition fail_json {R A : Type} (msg : string) : M R A :=
  fun s => (Halt (FailJson msg), s).

Definition exit_json {R A : Type} (r : Report) : M R A :=
  fun s => (Halt (ExitJson r), s).

Definition raise {R A : Type} (exc : string) : M R A :=
  fun s => (Halt (Uncaught exc), s).

(** [for x in l: body] *)
Fixpoint for_each {R A : Type} (l : list A) (body : A -> M R unit) : M R unit :=
  match l with
  | [] => ret tt
  | x :: rest => body x ;; for_each rest body
  end.

(** [for x in l: body], the body updating a local variable. *)
Fixpoint for_fold {R A S : Type} (l : list A) (acc : S) (body : S -> A -> M R S)
  : M R S :=
  match l with
  | [] => ret acc
  | x :: rest => acc' <- body acc x ;; for_fold rest acc' body
  end.

(** ** Constants of [main] *)

Definition federation_path : string := "/nexus/api/federation/v4/federations".
Definition member_path : string := "/nexus/api/federation/v4/members".
Definition clusters_path : string := "/nexus/infra/api/platform/v1/clusters".

Definition msg_required_if : string :=
  "state is present but all of the following are missing: clusters".
Definition msg_query_hostname : string :=
  "'cluster_hostname' is required when quering a specific federation member.".
Definition msg_present_fields : string :=
  "'cluster_hostname', 'cluster_username' and 'cluster_password' are required when state is present.".
Definition msg_not_primary : string :=
  "Local cluster is not the primary cluster in the federation. Cannot add/remove a member to this federation.".

(** ["{0}/{1}".format(a, b)] *)
Definition format_path (a b : string) : string :=
  String.append a (String.append "/" b).

(** ** The diff of [state == "present"] (lines 198-224) *)

(** [existing.get("spec").get("host") == user.get("cluster_hostname")] *)
Definition same_host (h : string) (user : Cluster) : bool :=
  match cluster_hostname user with
  | Some x => String.eqb h x
  | None => false
  end.

(** Lines 209-212: the inner [for ... break] sets [member_exists] on a match
    and otherwise leaves it as it was. *)
Fixpoint scan_clusters (h : string) (cl : list Cluster) (member_exists : bool)
  : bool :=
  match cl with
  | [] => member_exists
  | user_member_host :: rest =>
      if same_host h user_member_host then true
      else scan_clusters h rest member_exists
  end.

(** Lines 207-214.  [member_exists] is assigned [False] once, on line 206,
    before this loop; it is threaded through the iterations. *)
Fixpoint removal_pass (local_cluster_name : string) (cl : list Cluster)
    (federation_member_obj : list Member) (member_exists : bool)
    (remove_member_list : list Member) : list Member :=
  match federation_member_obj with
  | [] => remove_member_list
  | existing_member_hosts :: rest =>
      if negb (String.eqb (host existing_member_hosts) local_cluster_name) then
        let member_exists :=
          scan_clusters (host existing_member_hosts) cl member_exists in
        removal_pass local_cluster_name cl rest member_exists
          (if negb member_exists
           then remove_member_list ++ [existing_member_hosts]
           else remove_member_list)
      else
        removal_pass local_cluster_name cl rest member_exists remove_member_list
  end.

(** Lines 218-222: [found = False], then the inner [for ... break]. *)
Fixpoint scan_members (user_member_host : Cluster)
    (federation_member_obj : list Member) : bool :=
  match federation_member_obj with
  | [] => false
  | existing_member_hosts :: rest =>
      if same_host (host existing_member_hosts) user_member_host then true
      else scan_members user_member_host rest
  end.

(** Lines 217-224. *)
Fixpoint addition_pass (federation_member_obj : list Member)
    (cl : list Cluster) (add_member_list : list Cluster) : list Cluster :=
  match cl with
  | [] => add_member_list
  | user_member_host :: rest =>
      addition_pass federation_member_obj rest
        (if negb (scan_members user_member_host federation_member_obj)
         then add_member_list ++ [user_member_host]
         else add_member_list)
  end.

(** Lines 198-224: [(remove_member_list, add_member_list)]. *)
Definition present_diff (local_cluster_name : string)
    (federation_member_obj : list Member) (cl : list Cluster)
  : list Member * list Cluster :=
  if Nat.leb (List.length federation_member_obj) 1 then
    ([], cl)
  else
    (removal_pass local_cluster_name cl federation_member_obj false [],
     addition_pass federation_member_obj cl []).

(** [try: payload_dict[key].append(x) except: payload_dict[key] = [x]] *)
Definition append_or_init {A : Type} (l : option (list A)) (x : A)
  : option (list A) :=
  match l with
  | Some xs => Some (xs ++ [x])
  | None => Some [x]
  end.

Definition record_delete (pd : PayloadDict) (path : string) : PayloadDict :=
  mkPayloadDict (append_or_init (pd_DELETE pd) path) (pd_POST pd).

Definition record_post (pd : PayloadDict) (payload : MemberPayload)
  : PayloadDict :=
  mkPayloadDict (pd_DELETE pd) (append_or_init (pd_POST pd) payload).

(** [next((f for f in federation_obj if f.get("spec").get("name") == name), None)] *)
Definition find_federation (name : string) (federation_obj : list Federation)
  : option Federation :=
  find (fun f => String.eqb (federation_name f) name) federation_obj.
Arguments find_federation : simpl never.

(** [next((m for m in federation_member_obj
           if m.get("spec").get("host") == cluster.get("cluster_hostname")), None)] *)
Definition find_member (cluster : Cluster) (federation_member_obj : list Member)
  : option Member :=
  find (fun m => same_host (host m) cluster) federation_member_obj.

(** Lines 172-175: the last requested cluster with a match decides
    [nd.existing]. *)
Fixpoint query_pass (federation_member_obj : list Member) (cl : list Cluster)
    (nd_existing : Value) : Value :=
  match cl with
  | [] => nd_existing
  | cluster :: rest =>
      query_pass federation_member_obj rest
        (match find_member cluster federation_member_obj with
         | Some cluster_info => VMember cluster_info
         | None => nd_existing
         end)
  end.

(** Lines 240-247, the password already fetched. *)
Definition cluster_payload (member : Cluster) (password : string)
  : MemberPayload :=
  mkMemberPayload (cluster_hostname member) (cluster_username member)
    (Base64.b64encode password) (cluster_login_domain member).

(** ** [main] *)

Section Main.

Context {R : Type} (gw : Gateway R).

(** [nd.query_obj(path, ...).get("items")] *)
Definition query_obj {A : Type} (path : string) (read : R -> Reply A) : M R A :=
  fun s =>
    let s' := mkND (remote s) (issued s ++ [mkCall GET path NoData]) in
    match read (remote s) with
    | Replied a => (Next a, s')
    | Rejected msg => (Halt (FailJson msg), s')
    end.

(** [nd.request(path, method=..., data=...)] *)
Definition request (path : string) (method : Method) (data : Data) : M R unit :=
  fun s =>
    let log := issued s ++ [mkCall method path data] in
    match perform gw method path data (remote s) with
    | Replied r' => (Next tt, mkND r' log)
    | Rejected msg => (Halt (FailJson msg), mkND (remote s) log)
    end.

(** Lines 142-149. *)
Definition validate (clusters : option (list Cluster)) (state : State)
  : M R unit :=
  if truthy_list clusters then
    for_each (match clusters with Some l => l | None => [] end) (fun cluster =>
      match state with
      | query =>
          if negb (truthy_str (cluster_hostname cluster))
          then fail_json msg_query_hostname
          else ret tt
      | present =>
          if negb (truthy_str (cluster_hostname cluster)
                   && truthy_str (cluster_username cluster)
                   && truthy_str (cluster_password cluster))
          then fail_json msg_present_fields
          else ret tt
      | absent => ret tt
      end)
  else ret tt.

(** Lines 186-189. *)
Definition absent_removals (local_cluster_name : string)
    (federation_member_obj : list Member) : M R unit :=
  for_each federation_member_obj (fun member_host =>
    if negb (String.eqb (host member_host) local_cluster_name) then
      request (format_path member_path (memberID member_host)) DELETE NoData
    else ret tt).

(** Lines 191-195. *)
Definition absent_federation (local_cluster_name : string)
    (federation_obj : option (list Federation)) : M R unit :=
  items <- query_obj member_path (list_members gw) ;;
  match items with
  | None => raise "TypeError"                       (* len(None) *)
  | Some remaining =>
      if Nat.eqb (List.length remaining) 1 then
        match federation_obj with
        | None => raise "TypeError"                 (* for ... in None *)
        | Some feds =>
            match find_federation local_cluster_name feds with
            | Some federation_info =>
                request (format_path federation_path (federationID federation_info))
                        DELETE NoData
            | None => ret tt
            end
        end
      else ret tt
  end.

(** Lines 227-235. *)
Definition present_removals (remove_member_list : list Member)
    (payload_dict : PayloadDict) : M R PayloadDict :=
  for_fold remove_member_list payload_dict (fun payload_dict member =>
    let cluster_member_path := format_path member_path (memberID member) in
    request cluster_member_path DELETE NoData ;;
    ret (record_delete payload_dict cluster_member_path)).

(** Lines 238-261.  [nd.sanitize(payload, collate=True)] only touches
    [nd.proposed] and [nd.sent], which line 265 or 268 overwrites. *)
Definition present_additions (check_mode : bool) (local_cluster_name : string)
    (federation_obj : option (list Federation))
    (add_member_list : list Cluster) (payload_dict : PayloadDict)
  : M R PayloadDict :=
  for_fold add_member_list payload_dict (fun payload_dict member =>
    match cluster_password member with
    | None => raise "TypeError"                     (* str.encode(None) *)
    | Some password =>
        let payload := cluster_payload member password in
        let payload_dict := record_post payload_dict payload in
        (if negb check_mode then
           (if negb (truthy_list federation_obj) then
              request federation_path POST (FederationData local_cluster_name)
            else ret tt) ;;
           request member_path POST (MemberData payload)
         else ret tt) ;;
        ret payload_dict
    end).

(** Lines 197-268: the value of [(nd.existing, nd.proposed)] afterwards. *)
Definition main_present (check_mode : bool) (local_cluster_name : string)
    (federation_obj : option (list Federation))
    (federation_member_obj : option (list Member)) (cl : list Cluster)
    (nd_existing : Value) : M R (Value * Value) :=
  match federation_member_obj with
  | None => raise "TypeError"                       (* len(None) *)
  | Some members =>
      let '(remove_member_list, add_member_list) :=
        present_diff local_cluster_name members cl in
      let payload_dict := mkPayloadDict None None in
      match add_member_list, remove_member_list with
      | [], [] => ret (nd_existing, VEmpty)
      | _, _ =>
          payload_dict <- present_removals remove_member_list payload_dict ;;
          payload_dict <- present_additions check_mode local_cluster_name
                            federation_obj add_member_list payload_dict ;;
          if negb check_mode then
            items <- query_obj member_path (list_members gw) ;;
            ret (VItems items, VPayloads payload_dict)
          else
            ret (VPayloads payload_dict, VPayloads payload_dict)
      end
  end.

(** Lines 183-196: the value of [nd.existing] afterwards. *)
Definition main_absent (check_mode : bool) (local_cluster_name : string)
    (federation_obj : option (list Federation))
    (federation_member_obj : option (list Member)) (nd_existing : Value)
  : M R Value :=
  if truthy_value nd_existing then
    (if negb check_mode then
       absent_removals local_cluster_name
         (match federation_member_obj with Some l => l | None => [] end) ;;
       absent_federation local_cluster_name federation_obj
     else ret tt) ;;
    ret VEmpty
  else ret nd_existing.

(** Lines 128-134: [required_if=[["state", "present", ["clusters"]]]]. *)
Definition required_if (p : Params) : M R unit :=
  match state p, clusters p with
  | present, None => fail_json msg_required_if
  | _, _ => ret tt
  end.

Definition main (p : Params) : M R Empty_set :=
  required_if p ;;
  (* a missing [clusters] and an empty one are both falsy; when the state is
     present it is a list from here on *)
  let cl := match clusters p with Some l => l | None => [] end in
  validate (clusters p) (state p) ;;
  (* GET local cluster name *)
  items <- query_obj clusters_path (list_clusters gw) ;;
  local_cluster_name <-
    match items with
    | None => raise "TypeError"                     (* None[0] *)
    | Some [] => raise "IndexError"
    | Some (c :: _) => ret (cluster_name c)
    end ;;
  (* GET federation *)
  federation_obj <- query_obj federation_path (list_federations gw) ;;
  (* If federation exists, verify if local_cluster is the primary *)
  (match federation_obj with
   | Some (f0 :: fs) =>
       match find_federation local_cluster_name (f0 :: fs) with
       | None =>
           if negb (State_eqb (state p) query)
           then fail_json msg_not_primary
           else ret tt
       | Some _ => ret tt
       end
   | _ => ret tt
   end) ;;
  (* Get federation members *)
  federation_member_obj <- query_obj member_path (list_members gw) ;;
  (* Query specific member *)
  let nd_existing :=
    if truthy_list (clusters p) && State_eqb (state p) query then
      match federation_member_obj with
      | Some (m0 :: ms) => query_pass (m0 :: ms) cl VEmpty
      | _ => VEmpty
      end
    else VItems federation_member_obj in
  let nd_previous := nd_existing in
  match state p with
  | query => exit_json (mkReport nd_previous nd_existing VEmpty)
  | absent =>
      nd_existing <- main_absent (check_mode p) local_cluster_name federation_obj
                       federation_member_obj nd_existing ;;
      exit_json (mkReport nd_previous nd_existing VEmpty)
  | present =>
      '(nd_existing, nd_proposed) <-
         main_present (check_mode p) local_cluster_name federation_obj
           federation_member_obj cl nd_existing ;;
      exit_json (mkReport nd_previous nd_existing nd_proposed)
  end.

(** Running the module against a dashboard in state [r]: how it ends, the
    calls it issued in order, and the dashboard afterwards. *)
Definition run (p : Params) (r : R) : Outcome * list Call * R :=
  match main p (mkND r []) with
  | (Halt o, s) => (o, issued s, remote s)
  | (Next e, _) => match e with end
  end.

Definition outcome_of (p : Params) (r : R) : Outcome := fst (fst (run p r)).
Definition calls_of (p : Params) (r : R) : list Call := snd (fst (run p r)).

End Main.

(** ** A dashboard to run against *)

(** Modelled from the spec: the Remote Gateway, which is not part of the
    module's sources.  It holds the three collections the spec names (the
    local-cluster identity, the federations, the members, the latter flat and
    not nested under a federation); a read returns the collection as it is,
    POST creates a resource and DELETE removes the one whose identifier ends
    the path. *)
Module Dashboard.

Record T : Type := mk {
  the_clusters : list ClusterInfo;
  the_federations : list Federation;
  the_members : list Member
}.

Definition strip_prefix (pre s : string) : option string :=
  if String.prefix pre s
  then Some (substring (String.length pre)
                       (String.length s - String.length pre) s)
  else None.

Definition create_federation (name : string) (r : T) : T :=
  mk (the_clusters r)
     (the_federations r ++ [mkFederation name (String.append "fed-" name)])
     (the_members r).

Definition create_member (p : MemberPayload) (r : T) : T :=
  let h := match p_host p with Some h => h | None => "" end in
  mk (the_clusters r) (the_federations r)
     (the_members r ++ [mkMember h (String.append "id-" h)]).

Definition delete_member (id : string) (r : T) : T :=
  mk (the_clusters r) (the_federations r)
     (filter (fun m => negb (String.eqb (memberID m) id)) (the_members r)).

Definition delete_federation (id : string) (r : T) : T :=
  mk (the_clusters r)
     (filter (fun f => negb (String.eqb (federationID f) id)) (the_federations r))
     (the_members r).

Definition write (method : Method) (path : string) (data : Data) (r : T)
  : Reply T :=
  match method, data with
  | POST, FederationData name =>
      if String.eqb path federation_path
      then Replied (create_federation name r)
      else Rejected "404"
  | POST, MemberData p =>
      if String.eqb path member_path
      then Replied (create_member p r)
      else Rejected "404"
  | DELETE, NoData =>
      match strip_prefix (String.append member_path "/") path with
      | Some id => Replied (delete_member id r)
      | None =>
          match strip_prefix (String.append federation_path "/") path with
          | Some id => Replied (delete_federation id r)
          | None => Rejected "404"
          end
      end
  | _, _ => Rejected "405"
  end.

Definition gateway : Gateway T :=
  mkGateway T
    (fun r => Replied (Some (the_clusters r)))
    (fun r => Replied (Some (the_federations r)))
    (fun r => Replied (Some (the_members r)))
    write.

(** The same dashboard, answering the read of an empty federation or
    member collection without items, as [ignore_not_found_error=True] makes
    of a 404. *)
Definition items_of {A : Type} (l : list A) : option (list A) :=
  match l with
  | [] => None
  | _ => Some l
  end.

Definition not_found : Gateway T :=
  mkGateway T
    (fun r => Replied (Some (the_clusters r)))
    (fun r => Replied (items_of (the_federations r)))
    (fun r => Replied (items_of (the_members r)))
    write.

(** The same dashboard, answering a request it has no resource for by
    doing nothing instead of refusing it. *)
Definition lenient : Gateway T :=
  mkGateway T
    (fun r => Replied (Some (the_clusters r)))
    (fun r => Replied (Some (the_federations r)))
    (fun r => Replied (Some (the_members r)))
    (fun method path data r =>
       match write method path data r with
       | Replied r' => Replied r'
       | Rejected _ => Replied r
       end).

End Dashboard.

(** ** Sample data *)

Module Sample.

Definition primary : string := "nd-primary".
Definition A : string := "10.0.0.1".
Definition B : string := "10.0.0.2".
Definition C : string := "10.0.0.3".

Definition member (h : string) : Member := mkMember h (String.append "id-" h).
Definition cluster (h : string) : Cluster :=
  mkCluster (Some h) (Some "admin") (Some "password") "DefaultAuth".

Definition federated (members : list Member) : Dashboard.T :=
  Dashboard.mk [mkClusterInfo primary] [mkFederation primary "fed-nd-primary"]
               members.

Definition unfederated (members : list Member) : Dashboard.T :=
  Dashboard.mk [mkClusterInfo primary] [] members.

(** A federation of which another cluster is the primary. *)
Definition foreign (members : list Member) : Dashboard.T :=
  Dashboard.mk [mkClusterInfo primary] [mkFederation "nd-other" "fed-nd-other"]
               members.

Definition payload (h : string) : MemberPayload :=
  mkMemberPayload (Some h) (Some "admin") "cGFzc3dvcmQ=" "DefaultAuth".

Definition member_url (h : string) : string :=
  String.append "/nexus/api/federation/v4/members/id-" h.

Definition want (l : list string) (st : State) (chk : bool) : Params :=
  mkParams (Some (map cluster l)) st chk.

End Sample.

(** ** Vocabulary of the statements *)

(** A computation only appends to the list of issued calls, and every call
    it appends satisfies [P]. *)
Definition emits {R A : Type} (P : Call -> Prop) (m : M R A) : Prop :=
  forall s, exists evs, issued (snd (m s)) = issued s ++ evs /\ Forall P evs.

(** The same in two phases: calls satisfying [P], then calls satisfying [Q]. *)
Definition emits2 {R A : Type} (P Q : Call -> Prop) (m : M R A) : Prop :=
  forall s, exists evs1 evs2,
    issued (snd (m s)) = issued s ++ evs1 ++ evs2
    /\ Forall P evs1 /\ Forall Q evs2.

Definition is_read (c : Call) : Prop := c_method c = GET.

(** A computation issues GET requests only and leaves the dashboard alone. *)
Definition reads {R A : Type} (m : M R A) : Prop :=
  forall s,
    remote (snd (m s)) = remote s
    /\ exists evs, issued (snd (m s)) = issued s ++ evs /\ Forall is_read evs.

(** [emits], for the runs that start on a dashboard satisfying [I]. *)
Definition emits_from {R A : Type} (I : R -> Prop) (P : Call -> Prop)
    (m : M R A) : Prop :=
  forall s, I (remote s) ->
    exists evs, issued (snd (m s)) = issued s ++ evs /\ Forall P evs.

Definition not_post (c : Call) : Prop := c_method c <> POST.
Definition not_delete (c : Call) : Prop := c_method c <> DELETE.

Definition get (path : string) : Call := mkCall GET path NoData.
Definition delete (path : string) : Call := mkCall DELETE path NoData.
Definition post_federation (name : string) : Call :=
  mkCall POST federation_path (FederationData name).
Definition post_member (payload : MemberPayload) : Call :=
  mkCall POST member_path (MemberData payload).

Definition is_post_federation (c : Call) : bool :=
  Method_eqb (c_method c) POST && String.eqb (c_path c) federation_path.

(** A dashboard that carries out every request. *)
Definition accepting {R : Type} (gw : Gateway R) : Prop :=
  forall method path data r, exists r', perform gw method path data r = Replied r'.

(** The requests of one turn of the addition loop outside check mode. *)
Definition addition_calls (name : string) (feds : option (list Federation))
    (member : Cluster) : list Call :=
  match cluster_password member with
  | Some password =>
      (if truthy_list feds then [] else [post_federation name])
      ++ [post_member (cluster_payload member password)]
  | None => []
  end.

Definition removal_call (member : Member) : Call :=
  delete (format_path member_path (memberID member)).

(** What lines 131-149 ask of the parameters. *)
Definition complete (st : State) (c : Cluster) : bool :=
  match st with
  | query => truthy_str (cluster_hostname c)
  | present =>
      truthy_str (cluster_hostname c) && truthy_str (cluster_username c)
      && truthy_str (cluster_password c)
  | absent => true
  end.

Definition well_formed (p : Params) : bool :=
  match state p, clusters p with
  | present, None => false
  | _, None => true
  | st, Some l => forallb (complete st) l
  end.

(** The diff as the specification words it: remove every observed member
    that is neither the local cluster nor desired, add every desired member
    that is not observed. *)
Definition spec_removals (local_cluster_name : string) (desired : list Cluster)
    (observed : list Member) : list Member :=
  filter (fun m => negb (String.eqb (host m) local_cluster_name)
                   && negb (existsb (same_host (host m)) desired))
         observed.

Definition spec_additions (desired : list Cluster) (observed : list Member)
  : list Cluster :=
  filter (fun u => negb (existsb (fun m => same_host (host m) u) observed))
         desired.

(** The query result as the specification words it: every observed entry
    whose address is one of the requested ones. *)
Definition spec_query (requested : list Cluster) (observed : list Member)
  : list Member :=
  filter (fun m => existsb (same_host (host m)) requested) observed.

(** The three reads every run starts with. *)
Definition observation : list Call :=
  [get clusters_path; get federation_path; get member_path].

(** The test of lines 160-164 lets the run go on: there is no federation,
    or the state is query, or an entry bears the local cluster's name. *)
Definition gate_open (name : string) (feds : option (list Federation))
    (st : State) : bool :=
  negb (truthy_list feds) || State_eqb st query
  || match find_federation name (match feds with Some l => l | None => [] end) with
     | Some _ => true
     | None => false
     end.

Definition is_local (name : string) (m : Member) : bool :=
  String.eqb (host m) name.

Definition is_desired (cl : list Cluster) (m : Member) : bool :=
  existsb (same_host (host m)) cl.

(** The observed members ahead of the first one that is desired and is not
    the local cluster. *)
Fixpoint before_first_desired (name : string) (cl : list Cluster)
    (obs : list Member) : list Member :=
  match obs with
  | [] => []
  | e :: rest =>
      if is_local name e then e :: before_first_desired name cl rest
      else if is_desired cl e then []
      else e :: before_first_desired name cl rest
  end.

(** A DELETE addresses an element of the member collection. *)
Definition deletes_only_members (c : Call) : Prop :=
  c_method c = DELETE ->
  String.prefix (String.append member_path "/") (c_path c) = true.

(** The payload line 240-247 builds for a cluster that has a password. *)
Definition payload_of (member : Cluster) : MemberPayload :=
  cluster_payload member
    (match cluster_password member with Some pw => pw | None => "" end).

(** * Properties *)

(** ** The monad and the recorded calls *)

Section Emits.

Context {R : Type}.

Lemma emits_ret {A : Type} (P : Call -> Prop) (a : A) : emits P (@ret R A a).
Proof. intros s; exists []; simpl; rewrite app_nil_r; auto. Qed.

Lemma emits_fail_json {A : Type} (P : Call -> Prop) (msg : string) :
  emits P (@fail_json R A msg).
Proof. intros s; exists []; simpl; rewrite app_nil_r; auto. Qed.

Lemma emits_exit_json {A : Type} (P : Call -> Prop) (r : Report) :
  emits P (@exit_json R A r).
Proof. intros s; exists []; simpl; rewrite app_nil_r; auto. Qed.

Lemma emits_raise {A : Type} (P : Call -> Prop) (exc : string) :
  emits P (@raise R A exc).
Proof. intros s; exists []; simpl; rewrite app_nil_r; auto. Qed.

Lemma emits_bind {A B : Type} (P : Call -> Prop) (m : M R A) (k : A -> M R B) :
  emits P m -> (forall a, emits P (k a)) -> emits P (bind m k).
Proof.
  intros Hm Hk s. unfold bind.
  destruct (Hm s) as [e1 [E1 F1]].
  destruct (m s) as [[a | o] s']; simpl in *.
  - destruct (Hk a s') as [e2 [E2 F2]].
    exists (e1 ++ e2). rewrite E2, E1, app_assoc. split; auto.
    apply Forall_app; auto.
  - exists e1; auto.
Qed.

Lemma emits_weaken {A : Type} (P Q : Call -> Prop) (m : M R A) :
  (forall c, P c -> Q c) -> emits P m -> emits Q m.
Proof.
  intros HPQ Hm s. destruct (Hm s) as [e [E F]].
  exists e; split; auto. eapply Forall_impl; eauto.
Qed.

Lemma emits_for_each {A : Type} (P : Call -> Prop) (l : list A)
    (body : A -> M R unit) :
  (forall x, emits P (body x)) -> emits P (for_each l body).
Proof.
  intros Hb. induction l as [| x rest IH]; simpl.
  - apply emits_ret.
  - apply emits_bind; auto.
Qed.

Lemma emits_for_fold {A S : Type} (P : Call -> Prop) (l : list A)
    (body : S -> A -> M R S) :
  (forall acc x, emits P (body acc x)) ->
  forall acc, emits P (for_fold l acc body).
Proof.
  intros Hb. induction l as [| x rest IH]; simpl; intros acc.
  - apply emits_ret.
  - apply emits_bind; auto.
Qed.

Lemma emits_query_obj {A : Type} (P : Call -> Prop) (path : string)
    (read : R -> Reply A) :
  P (get path) -> emits P (query_obj path read).
Proof.
  intros HP s. exists [get path]. unfold query_obj.
  destruct (read (remote s)); simpl; auto.
Qed.

Lemma emits_request (gw : Gateway R) (P : Call -> Prop) (path : string)
    (method : Method) (data : Data) :
  P (mkCall method path data) -> emits P (request gw path method data).
Proof.
  intros HP s. exists [mkCall method path data]. unfold request.
  destruct (perform gw method path data (remote s)); simpl; auto.
Qed.

Lemma emits2_left {A : Type} (P Q : Call -> Prop) (m : M R A) :
  emits P m -> emits2 P Q m.
Proof.
  intros Hm s. destruct (Hm s) as [e [E F]].
  exists e, []. rewrite app_nil_r. auto.
Qed.

Lemma emits2_right {A : Type} (P Q : Call -> Prop) (m : M R A) :
  emits Q m -> emits2 P Q m.
Proof.
  intros Hm s. destruct (Hm s) as [e [E F]].
  exists [], e. simpl. auto.
Qed.

Lemma emits2_bind_left {A B : Type} (P Q : Call -> Prop) (m : M R A)
    (k : A -> M R B) :
  emits P m -> (forall a, emits2 P Q (k a)) -> emits2 P Q (bind m k).
Proof.
  intros Hm Hk s. unfold bind.
  destruct (Hm s) as [e1 [E1 F1]].
  destruct (m s) as [[a | o] s']; simpl in *.
  - destruct (Hk a s') as [e2 [e3 [E2 [F2 F3]]]].
    exists (e1 ++ e2), e3. rewrite E2, E1, !app_assoc. repeat split; auto.
    apply Forall_app; auto.
  - exists e1, []. rewrite app_nil_r. auto.
Qed.

Lemma emits2_bind_right {A B : Type} (P Q : Call -> Prop) (m : M R A)
    (k : A -> M R B) :
  emits2 P Q m -> (forall a, emits Q (k a)) -> emits2 P Q (bind m k).
Proof.
  intros Hm Hk s. unfold bind.
  destruct (Hm s) as [e1 [e2 [E1 [F1 F2]]]].
  destruct (m s) as [[a | o] s']; simpl in *.
  - destruct (Hk a s') as [e3 [E3 F3]].
    exists e1, (e2 ++ e3). rewrite E3, E1, !app_assoc. repeat split; auto.
    apply Forall_app; auto.
  - exists e1, e2. auto.
Qed.

End Emits.

(** One step of a proof that a computation emits only calls of some kind. *)
Ltac emits_step :=
  match goal with
  | |- emits _ (bind _ _) => apply emits_bind; [| intros]
  | |- emits _ (ret _) => apply emits_ret
  | |- emits _ (fail_json _) => apply emits_fail_json
  | |- emits _ (exit_json _) => apply emits_exit_json
  | |- emits _ (raise _) => apply emits_raise
  | |- emits _ (query_obj _ _) => apply emits_query_obj
  | |- emits _ (request _ _ _ _) => apply emits_request
  | |- emits _ (for_each _ _) => apply emits_for_each; intros
  | |- emits _ (for_fold _ _ _) => apply emits_for_fold; intros
  | |- emits _ (match ?x with _ => _ end) => destruct x
  end.

Section Runs.

Context {R : Type} (gw : Gateway R).

Lemma run_main (p : Params) (r : R) :
  exists o s, main gw p (mkND r []) = (Halt o, s)
              /\ run gw p r = (o, issued s, remote s).
Proof.
  unfold run. destruct (main gw p (mkND r [])) as [[e | o] s].
  - destruct e.
  - exists o, s; auto.
Qed.

Lemma calls_of_main (p : Params) (r : R) :
  calls_of gw p r = issued (snd (main gw p (mkND r []))).
Proof.
  unfold calls_of. destruct (run_main p r) as [o [s [E1 E2]]].
  rewrite E2, E1. reflexivity.
Qed.

Lemma emits_calls_of (P : Call -> Prop) (p : Params) (r : R) :
  emits P (main gw p) -> Forall P (calls_of gw p r).
Proof.
  intros H. rewrite calls_of_main.
  destruct (H (mkND r [])) as [e [E F]]. rewrite E. simpl. exact F.
Qed.

Lemma emits_validate (P : Call -> Prop) (cls : option (list Cluster))
    (st : State) :
  emits P (@validate R cls st).
Proof.
  unfold validate. repeat emits_step.
Qed.

End Runs.

Section Reads.

Context {R : Type}.

Lemma reads_ret {A : Type} (a : A) : reads (@ret R A a).
Proof. intros s; split; auto. exists []; simpl; rewrite app_nil_r; auto. Qed.

Lemma reads_fail_json {A : Type} (msg : string) : reads (@fail_json R A msg).
Proof. intros s; split; auto. exists []; simpl; rewrite app_nil_r; auto. Qed.

Lemma reads_raise {A : Type} (exc : string) : reads (@raise R A exc).
Proof. intros s; split; auto. exists []; simpl; rewrite app_nil_r; auto. Qed.

Lemma reads_bind {A B : Type} (m : M R A) (k : A -> M R B) :
  reads m -> (forall a, reads (k a)) -> reads (bind m k).
Proof.
  intros Hm Hk s. unfold bind.
  destruct (Hm s) as [R1 [e1 [E1 F1]]].
  destruct (m s) as [[a | o] s']; simpl in *.
  - destruct (Hk a s') as [R2 [e2 [E2 F2]]].
    split; [congruence |].
    exists (e1 ++ e2). rewrite E2, E1, app_assoc. split; auto.
    apply Forall_app; auto.
  - split; auto. exists e1; auto.
Qed.

Lemma reads_for_each {A : Type} (l : list A) (body : A -> M R unit) :
  (forall x, reads (body x)) -> reads (for_each l body).
Proof.
  intros Hb. induction l as [| x rest IH]; simpl.
  - apply reads_ret.
  - apply reads_bind; auto.
Qed.

Lemma reads_query_obj {A : Type} (path : string) (read : R -> Reply A) :
  reads (query_obj path read).
Proof.
  intros s. unfold query_obj.
  destruct (read (remote s)); simpl; split; auto;
    exists [get path]; split; auto; repeat constructor.
Qed.

Lemma emits_from_emits {A : Type} (I : R -> Prop) (P : Call -> Prop)
    (m : M R A) :
  emits P m -> emits_from I P m.
Proof. intros H s _. apply H. Qed.

Lemma emits_from_reads_bind {A B : Type} (I : R -> Prop) (P : Call -> Prop)
    (m : M R A) (k : A -> M R B) :
  reads m -> (forall c, is_read c -> P c) ->
  (forall a, emits_from I P (k a)) ->
  emits_from I P (bind m k).
Proof.
  intros Hm HP Hk s HI. unfold bind.
  destruct (Hm s) as [R1 [e1 [E1 F1]]].
  assert (F1' : Forall P e1) by (eapply Forall_impl; eauto).
  destruct (m s) as [[a | o] s']; simpl in *.
  - rewrite <- R1 in HI. destruct (Hk a s' HI) as [e2 [E2 F2]].
    exists (e1 ++ e2). rewrite E2, E1, app_assoc. split; auto.
    apply Forall_app; auto.
  - exists e1; auto.
Qed.

Lemma emits_from_ret_bind {A B : Type} (I : R -> Prop) (P : Call -> Prop)
    (a : A) (k : A -> M R B) :
  emits_from I P (k a) -> emits_from I P (bind (ret a) k).
Proof. intros H s HI. exact (H s HI). Qed.

Lemma emits_from_query_bind {A B : Type} (I : R -> Prop) (P : Call -> Prop)
    (path : string) (read : R -> Reply A) (a : A) (k : A -> M R B) :
  (forall r, I r -> read r = Replied a) -> P (get path) ->
  emits_from I P (k a) ->
  emits_from I P (bind (query_obj path read) k).
Proof.
  intros Hr HP Hk s HI. unfold bind, query_obj. rewrite (Hr _ HI).
  destruct (Hk (mkND (remote s) (issued s ++ [get path])) HI) as [e [E F]].
  exists (get path :: e). unfold get in *. rewrite E. simpl.
  rewrite <- app_assoc. split; auto.
Qed.

Lemma emits_from_calls_of (gw : Gateway R) (I : R -> Prop) (P : Call -> Prop)
    (p : Params) (r : R) :
  I r -> emits_from I P (main gw p) -> Forall P (calls_of gw p r).
Proof.
  intros HI H. rewrite calls_of_main.
  destruct (H (mkND r []) HI) as [e [E F]]. rewrite E. exact F.
Qed.

End Reads.

Ltac reads_step :=
  match goal with
  | |- reads (bind _ _) => apply reads_bind; [| intros]
  | |- reads (ret _) => apply reads_ret
  | |- reads (fail_json _) => apply reads_fail_json
  | |- reads (raise _) => apply reads_raise
  | |- reads (query_obj _ _) => apply reads_query_obj
  | |- reads (for_each _ _) => apply reads_for_each; intros
  | |- reads (match ?x with _ => _ end) => destruct x
  end.

Ltac reads_auto := repeat reads_step.

Lemma reads_validate {R : Type} (cls : option (list Cluster)) (st : State) :
  reads (@validate R cls st).
Proof. unfold validate. reads_auto. Qed.

Ltac call_kind :=
  unfold is_read, not_post, not_delete, get, delete, post_member,
    post_federation; simpl; congruence.

Ltac emits_auto := repeat emits_step; try call_kind.

Section Phases.

Context {R : Type} (gw : Gateway R).

Lemma emits_present_removals (l : list Member) (pd : PayloadDict) :
  emits not_post (present_removals gw l pd).
Proof. unfold present_removals. emits_auto. Qed.

Lemma emits_present_additions (chk : bool) (name : string)
    (feds : option (list Federation)) (l : list Cluster) (pd : PayloadDict) :
  emits not_delete (present_additions gw chk name feds l pd).
Proof. unfold present_additions. emits_auto. Qed.

Lemma emits2_main_present (chk : bool) (name : string)
    (feds : option (list Federation)) (ms : option (list Member))
    (cl : list Cluster) (v : Value) :
  emits2 not_post not_delete (main_present gw chk name feds ms cl v).
Proof.
  unfold main_present. destruct ms as [members |].
  2: { apply emits2_left. emits_auto. }
  destruct (present_diff name members cl) as [rm ad].
  assert (H : emits2 not_post not_delete
            (payload_dict <- present_removals gw rm (mkPayloadDict None None) ;;
             payload_dict <- present_additions gw chk name feds ad payload_dict ;;
             if negb chk
             then items <- query_obj member_path (list_members gw) ;;
                  ret (VItems items, VPayloads payload_dict)
             else ret (VPayloads payload_dict, VPayloads payload_dict))).
  { apply emits2_bind_left; [apply emits_present_removals | intros pd1].
    apply emits2_right.
    apply emits_bind; [apply emits_present_additions | intros pd2].
    emits_auto. }
  destruct ad, rm; try exact H.
  apply emits2_left. emits_auto.
Qed.

Lemma emits2_main_when_present (cls : option (list Cluster)) (chk : bool) :
  emits2 not_post not_delete (main gw (mkParams cls present chk)).
Proof.
  unfold main, required_if; simpl.
  apply emits2_bind_left; [emits_auto | intros _].
  apply emits2_bind_left; [apply emits_validate | intros _].
  apply emits2_bind_left; [emits_auto | intros items].
  apply emits2_bind_left; [emits_auto | intros name].
  apply emits2_bind_left; [emits_auto | intros feds].
  apply emits2_bind_left; [emits_auto | intros _].
  apply emits2_bind_left; [emits_auto | intros ms].
  apply emits2_bind_right; [apply emits2_main_present | intros [v1 v2]].
  emits_auto.
Qed.

Lemma emits_main_when_query (cls : option (list Cluster)) (chk : bool) :
  emits is_read (main gw (mkParams cls query chk)).
Proof.
  unfold main, required_if; simpl.
  apply emits_bind; [emits_auto | intros _].
  apply emits_bind; [apply emits_validate | intros _].
  emits_auto.
Qed.

End Phases.

(** C10.  Whatever the cluster list, the check mode, the dashboard and its
    answers: a run with [state=query] issues GET requests only. *)
Theorem query_issues_only_reads :
  forall (R : Type) (gw : Gateway R) (cls : option (list Cluster))
         (chk : bool) (r : R),
    Forall (fun c => c_method c = GET) (calls_of gw (mkParams cls query chk) r).
Proof.
  intros R gw cls chk r.
  apply (emits_calls_of gw is_read). apply emits_main_when_query.
Qed.

Lemma two_phases_ordered (P Q : Call -> Prop) (l1 l2 : list Call) (i j : nat)
    (ci cj : Call) :
  Forall P l1 -> Forall Q l2 ->
  nth_error (l1 ++ l2) i = Some ci -> ~ Q ci ->
  nth_error (l1 ++ l2) j = Some cj -> ~ P cj ->
  i < j.
Proof.
  intros F1 F2 Hi Qi Hj Pj.
  destruct (Nat.lt_ge_cases i (List.length l1)) as [Li | Li].
  - destruct (Nat.lt_ge_cases j (List.length l1)) as [Lj | Lj]; [| lia].
    rewrite nth_error_app1 in Hj by exact Lj.
    apply nth_error_In in Hj. rewrite Forall_forall in F1.
    elim Pj. auto.
  - rewrite nth_error_app2 in Hi by exact Li.
    apply nth_error_In in Hi. rewrite Forall_forall in F2.
    elim Qi. auto.
Qed.

(** C6.  In a run with [state=present], every DELETE request sits at a
    smaller position of the issued calls than every POST request: all
    removals are issued before any addition. *)
Theorem removals_precede_additions :
  forall (R : Type) (gw : Gateway R) (cls : option (list Cluster))
         (chk : bool) (r : R) (i j : nat) (ci cj : Call),
    nth_error (calls_of gw (mkParams cls present chk) r) i = Some ci ->
    c_method ci = DELETE ->
    nth_error (calls_of gw (mkParams cls present chk) r) j = Some cj ->
    c_method cj = POST ->
    i < j.
Proof.
  intros R gw cls chk r i j ci cj Hi Di Hj Pj.
  rewrite calls_of_main in Hi, Hj.
  destruct (emits2_main_when_present gw cls chk (mkND r []))
    as [l1 [l2 [E [F1 F2]]]].
  rewrite E in Hi, Hj. simpl in Hi, Hj.
  apply (two_phases_ordered not_post not_delete l1 l2 i j ci cj); auto;
    unfold not_post, not_delete; congruence.
Qed.

Lemma removals_precede_additions_witness :
  nth_error (calls_of Dashboard.gateway (Sample.want [Sample.B] present false)
               (Sample.federated [Sample.member Sample.primary;
                                  Sample.member Sample.C])) 3
    = Some (delete (Sample.member_url Sample.C))
  /\ nth_error (calls_of Dashboard.gateway (Sample.want [Sample.B] present false)
                  (Sample.federated [Sample.member Sample.primary;
                                     Sample.member Sample.C])) 4
    = Some (post_member (Sample.payload Sample.B))
  /\ 3 < 4.
Proof.
  split; [reflexivity |]. split; [reflexivity |].
  apply (removals_precede_additions Dashboard.T Dashboard.gateway
           (Some [Sample.cluster Sample.B]) false
           (Sample.federated [Sample.member Sample.primary;
                              Sample.member Sample.C])
           3 4 (delete (Sample.member_url Sample.C))
           (post_member (Sample.payload Sample.B)));
    reflexivity.
Defined.

(** ** The primary gate *)

Section Gate.

Context {R : Type} (gw : Gateway R).

Lemma validate_well_formed (p : Params) (s : ND R) :
  well_formed p = true -> validate (clusters p) (state p) s = (Next tt, s).
Proof.
  destruct p as [cls st chk]; unfold well_formed, validate; simpl.
  destruct cls as [l |]; [| reflexivity].
  intros W.
  assert (F : forallb (complete st) l = true) by (destruct st; exact W).
  clear W. destruct l as [| c0 l0]; [reflexivity |].
  unfold truthy_list.
  generalize dependent (c0 :: l0). clear c0 l0.
  induction l as [| c l IH]; simpl; intros F; [reflexivity |].
  apply andb_prop in F. destruct F as [Fc Fl].
  unfold bind at 1.
  destruct st; simpl in Fc; try rewrite Fc; simpl; auto.
Qed.

Lemma validate_ill_formed (p : Params) (s : ND R) :
  well_formed p = false ->
  (exists msg, required_if p s = (Halt (FailJson msg), s))
  \/ (required_if p s = (Next tt, s)
      /\ exists msg, validate (clusters p) (state p) s = (Halt (FailJson msg), s)).
Proof.
  destruct p as [cls st chk]; unfold well_formed, required_if, validate; simpl.
  destruct cls as [l |].
  - intros W. right.
    split; [destruct st; reflexivity |].
    assert (F : forallb (complete st) l = false) by (destruct st; exact W).
    clear W. destruct l as [| c0 l0]; [discriminate |].
    unfold truthy_list.
    generalize dependent (c0 :: l0). clear c0 l0.
    induction l as [| c l IH]; simpl; intros F; [discriminate |].
    unfold bind at 1.
    destruct (complete st c) eqn:Fc; simpl in F.
    + destruct st; simpl in Fc; try rewrite Fc; simpl; auto.
    + destruct st; simpl in Fc; try rewrite Fc; simpl; eauto. discriminate.
  - destruct st; intros W; try discriminate.
    left. eexists. reflexivity.
Qed.

Lemma find_federation_none (name : string) (feds : list Federation) :
  (forall f, In f feds -> federation_name f <> name) ->
  find_federation name feds = None.
Proof.
  intros H. unfold find_federation.
  induction feds as [| f feds IH]; simpl; [reflexivity |].
  destruct (String.eqb_spec (federation_name f) name) as [E | E].
  - exfalso. apply (H f); simpl; auto.
  - apply IH. intros g Hg. apply H. simpl; auto.
Qed.

End Gate.

(** C5.  When a federation exists and no entry of it bears the local
    cluster's name, a request with state present or absent ends in
    [fail_json]: with the not-primary message, after the two reads and
    nothing else, the dashboard as it was; or, for parameters the validation
    refuses, before any call at all.  A well-formed query request exits
    normally after the three reads. *)
Theorem primary_gate :
  forall (R : Type) (gw : Gateway R) (p : Params) (r : R)
         (c : ClusterInfo) (cs : list ClusterInfo) (feds : list Federation)
         (items : option (list Member)),
    list_clusters gw r = Replied (Some (c :: cs)) ->
    list_federations gw r = Replied (Some feds) ->
    feds <> [] ->
    (forall f, In f feds -> federation_name f <> cluster_name c) ->
    list_members gw r = Replied items ->
    (state p <> query ->
     if well_formed p
     then run gw p r
          = (FailJson msg_not_primary,
             [get clusters_path; get federation_path], r)
     else exists msg, run gw p r = (FailJson msg, [], r))
    /\ (state p = query -> well_formed p = true ->
        exists rep,
          run gw p r
            = (ExitJson rep,
               [get clusters_path; get federation_path; get member_path], r)).
Proof.
  intros R gw p r c cs feds items Hc Hf Hne Hno Hm.
  pose proof (find_federation_none _ _ Hno) as Hfind.
  assert (Hreq : well_formed p = true -> forall s : ND R,
           required_if p s = (Next tt, s)).
  { intros W s. unfold well_formed in W. unfold required_if.
    destruct (state p), (clusters p); try reflexivity; discriminate. }
  split.
  - intros Hst. destruct (well_formed p) eqn:W.
    + unfold run, main. unfold bind at 1. rewrite (Hreq eq_refl).
      unfold bind at 1. rewrite (validate_well_formed p _ W).
      unfold bind at 1. unfold query_obj at 1. simpl. rewrite Hc.
      unfold bind at 1. simpl.
      unfold bind at 1. unfold query_obj at 1. simpl. rewrite Hf.
      unfold bind at 1. destruct feds as [| f0 fs]; [congruence |].
      rewrite Hfind.
      destruct (state p); simpl; try reflexivity. congruence.
    + unfold run, main. unfold bind at 1.
      destruct (validate_ill_formed p (mkND r []) W) as [[msg E] | [E [msg E']]];
        rewrite E.
      * exists msg. reflexivity.
      * unfold bind at 1. rewrite E'. exists msg. reflexivity.
  - intros Hst W.
    unfold run, main. unfold bind at 1. rewrite (Hreq W).
    unfold bind at 1. rewrite (validate_well_formed p _ W).
    unfold bind at 1. unfold query_obj at 1. simpl. rewrite Hc.
    unfold bind at 1. simpl.
    unfold bind at 1. unfold query_obj at 1. simpl. rewrite Hf.
    unfold bind at 1. destruct feds as [| f0 fs]; [congruence |].
    rewrite Hfind. rewrite Hst. simpl.
    unfold bind at 1. unfold query_obj at 1. simpl. rewrite Hm.
    simpl. eexists. reflexivity.
Qed.

Lemma primary_gate_witness :
  run Dashboard.gateway (Sample.want [Sample.B] present false)
      (Sample.foreign [Sample.member "nd-other"; Sample.member Sample.A])
    = (FailJson msg_not_primary, [get clusters_path; get federation_path],
       Sample.foreign [Sample.member "nd-other"; Sample.member Sample.A])
  /\ exists rep,
       run Dashboard.gateway (Sample.want [Sample.A] query false)
           (Sample.foreign [Sample.member "nd-other"; Sample.member Sample.A])
         = (ExitJson rep,
            [get clusters_path; get federation_path; get member_path],
            Sample.foreign [Sample.member "nd-other"; Sample.member Sample.A]).
Proof.
  assert (No : forall f, In f [mkFederation "nd-other" "fed-nd-other"] ->
                         federation_name f <> Sample.primary).
  { intros f [E | []]. subst f. simpl. discriminate. }
  split.
  - apply (proj1 (primary_gate Dashboard.T Dashboard.gateway
                    (Sample.want [Sample.B] present false)
                    (Sample.foreign [Sample.member "nd-other";
                                     Sample.member Sample.A])
                    (mkClusterInfo Sample.primary) []
                    [mkFederation "nd-other" "fed-nd-other"]
                    (Some [Sample.member "nd-other"; Sample.member Sample.A])
                    eq_refl eq_refl ltac:(discriminate) No eq_refl)).
    simpl. discriminate.
  - apply (proj2 (primary_gate Dashboard.T Dashboard.gateway
                    (Sample.want [Sample.A] query false)
                    (Sample.foreign [Sample.member "nd-other";
                                     Sample.member Sample.A])
                    (mkClusterInfo Sample.primary) []
                    [mkFederation "nd-other" "fed-nd-other"]
                    (Some [Sample.member "nd-other"; Sample.member Sample.A])
                    eq_refl eq_refl ltac:(discriminate) No eq_refl));
      reflexivity.
Defined.

(** ** The diff of the present state *)

Lemma scan_clusters_spec (h : string) (cl : list Cluster) (member_exists : bool) :
  scan_clusters h cl member_exists = member_exists || existsb (same_host h) cl.
Proof.
  induction cl as [| u cl IH]; simpl.
  - now rewrite orb_false_r.
  - destruct (same_host h u); simpl.
    + now rewrite orb_true_r.
    + exact IH.
Qed.

Lemma scan_members_spec (u : Cluster) (obs : list Member) :
  scan_members u obs = existsb (fun m => same_host (host m) u) obs.
Proof.
  induction obs as [| m obs IH]; simpl; [reflexivity |].
  destruct (same_host (host m) u); simpl; auto.
Qed.

(** The additions are those of the specification, in the order given. *)
Lemma addition_pass_spec (obs : list Member) (cl acc : list Cluster) :
  addition_pass obs cl acc = acc ++ spec_additions cl obs.
Proof.
  revert acc. induction cl as [| u cl IH]; simpl; intros acc.
  - now rewrite app_nil_r.
  - rewrite IH, scan_members_spec.
    destruct (existsb (fun m => same_host (host m) u) obs); simpl; auto.
    now rewrite <- app_assoc.
Qed.

(** Once [member_exists] is set, the removal loop appends nothing more. *)
Lemma removal_pass_after_match (name : string) (cl : list Cluster)
    (obs acc : list Member) :
  removal_pass name cl obs true acc = acc.
Proof.
  revert acc. induction obs as [| e obs IH]; simpl; intros acc; [reflexivity |].
  destruct (negb (host e =? name)%string); simpl.
  - rewrite scan_clusters_spec. simpl. apply IH.
  - apply IH.
Qed.

(** Whatever the loop removes, the specification removes too. *)
Lemma removal_pass_sound (name : string) (cl : list Cluster)
    (obs : list Member) (member_exists : bool) (acc : list Member) :
  exists more,
    removal_pass name cl obs member_exists acc = acc ++ more
    /\ incl more (spec_removals name cl obs).
Proof.
  revert member_exists acc.
  induction obs as [| e obs IH]; simpl; intros me acc.
  - exists []. rewrite app_nil_r. split; [reflexivity | apply incl_nil_l].
  - rewrite scan_clusters_spec.
    destruct (host e =? name)%string; simpl.
    + apply IH.
    + destruct me; simpl.
      * destruct (IH true acc) as [more [E I]].
        exists more. split; [exact E |].
        destruct (existsb (same_host (host e)) cl); simpl; auto.
        apply incl_tl; exact I.
      * destruct (existsb (same_host (host e)) cl); simpl.
        -- apply IH.
        -- destruct (IH false (acc ++ [e])) as [more [E I]].
           exists (e :: more). rewrite E, <- app_assoc. split; [reflexivity |].
           apply incl_cons; simpl; auto. apply incl_tl; exact I.
Qed.

(** Nothing is removed when every observed member other than the local
    cluster is among the desired ones. *)
Lemma removal_pass_all_desired (name : string) (cl : list Cluster)
    (obs : list Member) (member_exists : bool) (acc : list Member) :
  (forall e, In e obs -> host e <> name ->
             existsb (same_host (host e)) cl = true) ->
  removal_pass name cl obs member_exists acc = acc.
Proof.
  revert member_exists acc.
  induction obs as [| e obs IH]; simpl; intros me acc H; [reflexivity |].
  destruct (String.eqb_spec (host e) name) as [E | E]; simpl.
  - apply IH. intros; apply H; auto.
  - rewrite scan_clusters_spec, (H e) by auto.
    rewrite orb_true_r. simpl. apply removal_pass_after_match.
Qed.

Lemma main_present_bootstrap :
  forall (R : Type) (gw : Gateway R) (chk : bool) (name : string)
         (feds : option (list Federation)) (observed : list Member)
         (desired : list Cluster) (v : Value),
    List.length observed <= 1 ->
    present_diff name observed desired = ([], desired)
    /\ emits not_delete
         (main_present gw chk name feds (Some observed) desired v).
Proof.
  intros R gw chk name feds observed desired v Hlen.
  assert (D : present_diff name observed desired = ([], desired)).
  { unfold present_diff.
    destruct (Nat.leb_spec (List.length observed) 1); [reflexivity | lia]. }
  split; [exact D |].
  unfold main_present. rewrite D.
  destruct desired; [emits_auto |].
  apply emits_bind; [unfold present_removals; simpl; emits_auto | intros pd].
  apply emits_bind; [apply emits_present_additions | intros pd'].
  emits_auto.
Qed.

(** C7.  State present, the member collection read with at most one entry:
    the plan removes nothing and adds every desired member, whatever the
    addresses, and the run issues no DELETE. *)
Theorem bootstrap_adds_every_member :
  forall (R : Type) (gw : Gateway R) (cls : option (list Cluster))
         (chk : bool) (r : R) (observed : list Member),
    list_members gw r = Replied (Some observed) ->
    List.length observed <= 1 ->
    (forall name desired, present_diff name observed desired = ([], desired))
    /\ Forall (fun c => c_method c <> DELETE)
         (calls_of gw (mkParams cls present chk) r).
Proof.
  intros R gw cls chk r observed Hm Hlen. split.
  - intros name desired.
    apply (main_present_bootstrap R gw chk name None observed desired VEmpty Hlen).
  - apply (emits_from_calls_of gw
             (fun r' => list_members gw r' = Replied (Some observed))
             not_delete); [exact Hm |].
    unfold main, required_if; simpl.
    apply emits_from_reads_bind; [reads_auto | call_kind | intros _].
    apply emits_from_reads_bind; [apply reads_validate | call_kind | intros _].
    apply emits_from_reads_bind; [reads_auto | call_kind | intros items].
    apply emits_from_reads_bind; [reads_auto | call_kind | intros name].
    apply emits_from_reads_bind; [reads_auto | call_kind | intros feds].
    apply emits_from_reads_bind; [reads_auto | call_kind | intros _].
    apply emits_from_query_bind with (a := Some observed);
      [auto | call_kind |].
    apply emits_from_emits.
    apply emits_bind; [| intros [v1 v2]; emits_auto].
    apply main_present_bootstrap. exact Hlen.
Qed.

Lemma bootstrap_adds_every_member_witness :
  present_diff Sample.primary [Sample.member Sample.A]
               [Sample.cluster Sample.A; Sample.cluster Sample.B]
    = ([], [Sample.cluster Sample.A; Sample.cluster Sample.B])
  /\ Forall (fun c => c_method c <> DELETE)
        (calls_of Dashboard.gateway
           (Sample.want [Sample.A; Sample.B] present false)
           (Sample.unfederated [Sample.member Sample.A])).
Proof.
  split.
  - apply (proj1 (bootstrap_adds_every_member Dashboard.T Dashboard.gateway
                    (Some [Sample.cluster Sample.A; Sample.cluster Sample.B])
                    false (Sample.unfederated [Sample.member Sample.A])
                    [Sample.member Sample.A] eq_refl ltac:(simpl; lia))).
  - apply (proj2 (bootstrap_adds_every_member Dashboard.T Dashboard.gateway
                    (Some [Sample.cluster Sample.A; Sample.cluster Sample.B])
                    false (Sample.unfederated [Sample.member Sample.A])
                    [Sample.member Sample.A] eq_refl ltac:(simpl; lia))).
Defined.

Lemma some_host_in (h : string) (cl : list Cluster) :
  In (Some h) (map cluster_hostname cl) -> existsb (same_host h) cl = true.
Proof.
  intros H. apply in_map_iff in H. destruct H as [u [E I]].
  apply existsb_exists. exists u. split; [exact I |].
  unfold same_host. rewrite E. apply String.eqb_refl.
Qed.

Lemma filter_none {A : Type} (f : A -> bool) (l : list A) :
  (forall x, In x l -> f x = false) -> filter f l = [].
Proof.
  induction l as [| x l IH]; simpl; intros H; [reflexivity |].
  rewrite (H x) by auto. apply IH. intros; apply H; auto.
Qed.

(** The plan is empty as soon as every desired member is observed, every
    observed member is the local cluster or desired, and the bootstrap
    shortcut does not apply. *)
Lemma present_diff_converged (name : string) (observed : list Member)
    (desired : list Cluster) :
  (forall u, In u desired ->
             existsb (fun m => same_host (host m) u) observed = true) ->
  (forall e, In e observed -> host e <> name ->
             existsb (same_host (host e)) desired = true) ->
  desired = [] \/ 1 < List.length observed ->
  present_diff name observed desired = ([], []).
Proof.
  intros Hadd Hrem Hlen. unfold present_diff.
  destruct (Nat.leb_spec (List.length observed) 1) as [Hle | Hgt].
  - destruct Hlen as [-> | Hlen]; [reflexivity | lia].
  - f_equal.
    + apply removal_pass_all_desired. exact Hrem.
    + rewrite addition_pass_spec, app_nil_l. unfold spec_additions.
      apply filter_none. intros u Hu. apply negb_false_iff. auto.
Qed.

Lemma present_diff_again (name : string) (observed : list Member)
    (desired : list Cluster) :
  Permutation (map (fun m => Some (host m)) observed)
              (Some name :: map cluster_hostname desired) ->
  present_diff name observed desired = ([], []).
Proof.
  intros HP. apply present_diff_converged.
  - intros u Hu.
    assert (I : In (cluster_hostname u)
                   (map (fun m => Some (host m)) observed)).
    { apply (Permutation_in _ (Permutation_sym HP)).
      right. apply in_map. exact Hu. }
    apply in_map_iff in I. destruct I as [m [E I]].
    apply existsb_exists. exists m. split; [exact I |].
    unfold same_host. rewrite <- E. apply String.eqb_refl.
  - intros e He Hne. apply some_host_in.
    assert (I : In (Some (host e)) (Some name :: map cluster_hostname desired)).
    { apply (Permutation_in _ HP).
      apply (in_map (fun m => Some (host m))). exact He. }
    destruct I as [I | I]; [congruence | exact I].
  - pose proof (Permutation_length HP) as L. simpl in L.
    rewrite !length_map in L.
    destruct desired; [left; reflexivity | right; simpl in L; lia].
Qed.

(** C8.  State present once more with the same desired members, the
    dashboard now listing the local cluster and the desired members, one
    entry each: the plan is empty, and the run issues reads only. *)
Theorem present_again_plans_nothing :
  forall (R : Type) (gw : Gateway R) (desired : list Cluster) (chk : bool)
         (r : R) (c : ClusterInfo) (cs : list ClusterInfo)
         (observed : list Member),
    list_clusters gw r = Replied (Some (c :: cs)) ->
    list_members gw r = Replied (Some observed) ->
    Permutation (map (fun m => Some (host m)) observed)
                (Some (cluster_name c) :: map cluster_hostname desired) ->
    present_diff (cluster_name c) observed desired = ([], [])
    /\ Forall (fun c => c_method c = GET)
         (calls_of gw (mkParams (Some desired) present chk) r).
Proof.
  intros R gw desired chk r c cs observed Hc Hm HP.
  pose proof (present_diff_again _ _ _ HP) as D.
  split; [exact D |].
  apply (emits_from_calls_of gw
           (fun r' => list_clusters gw r' = Replied (Some (c :: cs))
                      /\ list_members gw r' = Replied (Some observed))
           is_read); [auto |].
  unfold main, required_if; simpl.
  apply emits_from_reads_bind; [reads_auto | call_kind | intros _].
  apply emits_from_reads_bind; [apply reads_validate | call_kind | intros _].
  apply emits_from_query_bind with (a := Some (c :: cs));
    [tauto | call_kind |].
  apply emits_from_ret_bind.
  apply emits_from_reads_bind; [reads_auto | call_kind | intros feds].
  apply emits_from_reads_bind; [reads_auto | call_kind | intros _].
  apply emits_from_query_bind with (a := Some observed);
    [tauto | call_kind |].
  apply emits_from_emits.
  unfold main_present. rewrite D. emits_auto.
Qed.

Lemma present_again_plans_nothing_witness :
  present_diff Sample.primary
    [Sample.member Sample.primary; Sample.member Sample.B; Sample.member Sample.A]
    [Sample.cluster Sample.A; Sample.cluster Sample.B]
    = ([], [])
  /\ Forall (fun c => c_method c = GET)
        (calls_of Dashboard.gateway
           (Sample.want [Sample.A; Sample.B] present false)
           (Sample.federated [Sample.member Sample.primary;
                              Sample.member Sample.B; Sample.member Sample.A])).
Proof.
  apply (present_again_plans_nothing Dashboard.T Dashboard.gateway
           [Sample.cluster Sample.A; Sample.cluster Sample.B] false
           (Sample.federated [Sample.member Sample.primary;
                              Sample.member Sample.B; Sample.member Sample.A])
           (mkClusterInfo Sample.primary) []
           [Sample.member Sample.primary; Sample.member Sample.B;
            Sample.member Sample.A]
           eq_refl eq_refl
           ltac:(simpl; apply perm_skip; apply perm_swap)).
Defined.

(** ** Where the module departs from its description *)

(** C1.  Desired {A, B}, observed {primary, A, C}, state present: the
    specification removes C and adds B.  The module adds B and removes
    nothing: A, met before C, sets [member_exists], which is never reset.
    The run issues the POST for B and no DELETE. *)
Theorem present_scenario_keeps_C :
  spec_removals Sample.primary
      [Sample.cluster Sample.A; Sample.cluster Sample.B]
      [Sample.member Sample.primary; Sample.member Sample.A;
       Sample.member Sample.C]
    = [Sample.member Sample.C]
  /\ present_diff Sample.primary
       [Sample.member Sample.primary; Sample.member Sample.A;
        Sample.member Sample.C]
       [Sample.cluster Sample.A; Sample.cluster Sample.B]
     = ([], [Sample.cluster Sample.B])
  /\ calls_of Dashboard.gateway (Sample.want [Sample.A; Sample.B] present false)
       (Sample.federated [Sample.member Sample.primary; Sample.member Sample.A;
                          Sample.member Sample.C])
     = [get clusters_path; get federation_path; get member_path;
        post_member (Sample.payload Sample.B); get member_path].
Proof. repeat split; reflexivity. Qed.

(** The same members observed in another order: C, met before A, is removed. *)
Lemma present_scenario_reordered :
  present_diff Sample.primary
    [Sample.member Sample.primary; Sample.member Sample.C;
     Sample.member Sample.A]
    [Sample.cluster Sample.A; Sample.cluster Sample.B]
  = ([Sample.member Sample.C], [Sample.cluster Sample.B]).
Proof. reflexivity. Qed.

(** C2.  State present under check mode, desired {B}, observed {primary, C}:
    the DELETE for C is issued all the same, and the dashboard has lost C
    afterwards.  Only the POST is held back. *)
Theorem check_mode_present_still_deletes :
  run Dashboard.gateway (Sample.want [Sample.B] present true)
      (Sample.federated [Sample.member Sample.primary; Sample.member Sample.C])
    = (ExitJson
         (mkReport
            (VItems (Some [Sample.member Sample.primary; Sample.member Sample.C]))
            (VPayloads (mkPayloadDict (Some [Sample.member_url Sample.C])
                                      (Some [Sample.payload Sample.B])))
            (VPayloads (mkPayloadDict (Some [Sample.member_url Sample.C])
                                      (Some [Sample.payload Sample.B])))),
       [get clusters_path; get federation_path; get member_path;
        delete (Sample.member_url Sample.C)],
       Sample.federated [Sample.member Sample.primary]).
Proof. reflexivity. Qed.

Section CheckMode.

Context {R : Type} (gw : Gateway R).

(** Under check mode the absent state issues reads only. *)
Lemma check_mode_absent_reads_only (cls : option (list Cluster)) (r : R) :
  Forall is_read (calls_of gw (mkParams cls absent true) r).
Proof.
  apply emits_calls_of. unfold main, required_if; simpl.
  apply emits_bind; [emits_auto | intros _].
  apply emits_bind; [apply emits_validate | intros _].
  unfold main_absent. cbn [negb]. emits_auto.
Qed.

(** Under check mode the present state issues no POST. *)
Lemma check_mode_present_no_post (cls : option (list Cluster)) (r : R) :
  Forall not_post (calls_of gw (mkParams cls present true) r).
Proof.
  apply emits_calls_of. unfold main, required_if; simpl.
  apply emits_bind; [emits_auto | intros _].
  apply emits_bind; [apply emits_validate | intros _].
  apply emits_bind; [emits_auto | intros items].
  apply emits_bind; [emits_auto | intros name].
  apply emits_bind; [emits_auto | intros feds].
  apply emits_bind; [emits_auto | intros _].
  apply emits_bind; [emits_auto | intros ms].
  apply emits_bind; [| intros [v1 v2]; emits_auto].
  unfold main_present. destruct ms as [members |]; [| emits_auto].
  destruct (present_diff name members _) as [rm ad].
  assert (H : forall pd0,
            emits not_post
              (payload_dict <- present_removals gw rm pd0 ;;
               payload_dict <- present_additions gw true name feds ad
                                 payload_dict ;;
               ret (VPayloads payload_dict, VPayloads payload_dict))).
  { intros pd0.
    apply emits_bind; [apply emits_present_removals | intros pd1].
    apply emits_bind; [| intros; emits_auto].
    unfold present_additions. cbn [negb]. emits_auto. }
  cbn [negb].
  destruct ad, rm; try apply H. emits_auto.
Qed.

End CheckMode.

(** C3.  State absent, the local cluster primary of its federation, one
    member C observed: after the DELETE for C the member collection is read
    again and has no entry; no DELETE for the federation follows, and the
    federation is still there. *)
Theorem absent_keeps_memberless_federation :
  run Dashboard.gateway (mkParams None absent false)
      (Sample.federated [Sample.member Sample.C])
    = (ExitJson (mkReport (VItems (Some [Sample.member Sample.C])) VEmpty VEmpty),
       [get clusters_path; get federation_path; get member_path;
        delete (Sample.member_url Sample.C); get member_path],
       Sample.federated []).
Proof. reflexivity. Qed.

(** With the primary among the members, one entry is left and the
    federation is deleted. *)
Lemma absent_deletes_federation_of_one :
  run Dashboard.gateway (mkParams None absent false)
      (Sample.federated [Sample.member Sample.primary; Sample.member Sample.C])
    = (ExitJson
         (mkReport
            (VItems (Some [Sample.member Sample.primary; Sample.member Sample.C]))
            VEmpty VEmpty),
       [get clusters_path; get federation_path; get member_path;
        delete (Sample.member_url Sample.C); get member_path;
        delete "/nexus/api/federation/v4/federations/fed-nd-primary"],
       Dashboard.mk [mkClusterInfo Sample.primary] []
                    [Sample.member Sample.primary]).
Proof. reflexivity. Qed.

(** What lines 191-195 issue, in general: the read, then the DELETE of the
    local cluster's federation exactly when one entry is left. *)
Lemma absent_federation_calls :
  forall (R : Type) (gw : Gateway R) (name : string) (feds : list Federation)
         (f : Federation) (remaining : list Member) (s : ND R),
    list_members gw (remote s) = Replied (Some remaining) ->
    find_federation name feds = Some f ->
    issued (snd (absent_federation gw name (Some feds) s))
      = issued s ++ get member_path
          :: (if Nat.eqb (List.length remaining) 1
              then [delete (format_path federation_path (federationID f))]
              else []).
Proof.
  intros R gw name feds f remaining s Hm Hf.
  unfold absent_federation, bind, query_obj. rewrite Hm. simpl.
  destruct (Nat.eqb (List.length remaining) 1).
  - rewrite Hf. unfold request. simpl.
    destruct (perform gw DELETE _ NoData (remote s)); simpl;
      now rewrite <- app_assoc.
  - reflexivity.
Qed.

Section Accepting.

Context {R : Type} (gw : Gateway R) (Hgw : accepting gw).

Lemma request_accepted (path : string) (method : Method) (data : Data)
    (s : ND R) :
  exists r', request gw path method data s
             = (Next tt, mkND r' (issued s ++ [mkCall method path data])).
Proof.
  unfold request. destruct (Hgw method path data (remote s)) as [r' E].
  rewrite E. eauto.
Qed.

(** The removal loop issues one DELETE per member of the list; the check
    mode is not among its inputs. *)
Lemma present_removals_calls (rm : list Member) (pd : PayloadDict) (s : ND R) :
  exists pd' r',
    present_removals gw rm pd s
      = (Next pd', mkND r' (issued s ++ map removal_call rm)).
Proof.
  unfold present_removals. revert pd s.
  induction rm as [| m rm IH]; simpl; intros pd s.
  - exists pd, (remote s). unfold ret. rewrite app_nil_r. now destruct s.
  - unfold bind at 1. unfold bind at 1.
    destruct (request_accepted (format_path member_path (memberID m))
                DELETE NoData s) as [r1 E1].
    rewrite E1. unfold ret at 1.
    destruct (IH (record_delete pd (format_path member_path (memberID m)))
                 (mkND r1 (issued s ++ [delete (format_path member_path (memberID m))])))
      as [pd' [r' E]].
    unfold delete in E. rewrite E. simpl. rewrite <- app_assoc.
    exists pd', r'. reflexivity.
Qed.

(** Outside check mode, and without a federation, every turn of the
    addition loop issues the POST that creates the federation. *)
Lemma present_additions_calls (name : string) (feds : option (list Federation))
    (ad : list Cluster) (pd : PayloadDict) (s : ND R) :
  Forall (fun u => cluster_password u <> None) ad ->
  exists pd' r',
    present_additions gw false name feds ad pd s
      = (Next pd', mkND r' (issued s ++ flat_map (addition_calls name feds) ad)).
Proof.
  unfold present_additions, addition_calls.
  destruct (truthy_list feds); cbn [negb]; revert pd s;
    induction ad as [| u ad IH]; simpl; intros pd s Hpw;
    try (exists pd, (remote s); unfold ret; rewrite app_nil_r;
         now destruct s);
    inversion Hpw as [| u' ad' Hu Had]; subst;
    (destruct (cluster_password u) as [pw |]; [| congruence]);
    unfold bind at 1; unfold bind at 1; unfold bind at 1.
  - destruct (request_accepted member_path POST
                (MemberData (cluster_payload u pw)) s) as [r1 E1].
    unfold ret at 1. rewrite E1. unfold ret at 1.
    destruct (IH (record_post pd (cluster_payload u pw))
                 (mkND r1 (issued s ++ [post_member (cluster_payload u pw)]))
                 Had) as [pd' [r' E]].
    unfold post_member in E at 1. rewrite E. simpl.
    rewrite <- app_assoc. exists pd', r'. reflexivity.
  - destruct (request_accepted federation_path POST (FederationData name) s)
      as [r0 E0].
    rewrite E0.
    destruct (request_accepted member_path POST
                (MemberData (cluster_payload u pw))
                (mkND r0 (issued s ++ [post_federation name])))
      as [r1 E1].
    unfold post_federation in E1 at 1. rewrite E1. unfold ret at 1.
    destruct (IH (record_post pd (cluster_payload u pw))
                 (mkND r1 ((issued s ++ [post_federation name])
                           ++ [post_member (cluster_payload u pw)]))
                 Had) as [pd' [r' E]].
    cbn [issued]. unfold post_member in E at 1.
    rewrite E. simpl. rewrite <- !app_assoc. exists pd', r'. reflexivity.
Qed.

End Accepting.

(** C4.  State present, no federation, nothing observed, desired {A, B}: the
    POST that creates the federation is issued twice, once before each
    member POST. *)
Theorem federation_created_per_addition :
  calls_of Dashboard.gateway (Sample.want [Sample.A; Sample.B] present false)
           (Sample.unfederated [])
    = [get clusters_path; get federation_path; get member_path;
       post_federation Sample.primary; post_member (Sample.payload Sample.A);
       post_federation Sample.primary; post_member (Sample.payload Sample.B);
       get member_path]
  /\ List.length
       (filter is_post_federation
          (calls_of Dashboard.gateway
             (Sample.want [Sample.A; Sample.B] present false)
             (Sample.unfederated [])))
     = 2.
Proof. split; reflexivity. Qed.

(** C9.  State query for A and B, both observed: the specification returns
    both entries, the module the entry of B only, the last one matched. *)
Theorem query_reports_last_match_only :
  spec_query [Sample.cluster Sample.A; Sample.cluster Sample.B]
      [Sample.member Sample.primary; Sample.member Sample.A;
       Sample.member Sample.B]
    = [Sample.member Sample.A; Sample.member Sample.B]
  /\ outcome_of Dashboard.gateway (Sample.want [Sample.A; Sample.B] query false)
       (Sample.federated [Sample.member Sample.primary; Sample.member Sample.A;
                          Sample.member Sample.B])
     = ExitJson (mkReport (VMember (Sample.member Sample.B))
                          (VMember (Sample.member Sample.B)) VEmpty).
Proof. split; reflexivity. Qed.

(** A requested address without an entry leaves the result as it was. *)
Lemma query_pass_no_match (obs : list Member) (cl : list Cluster) (v : Value) :
  (forall c, In c cl -> find_member c obs = None) ->
  query_pass obs cl v = v.
Proof.
  revert v. induction cl as [| c cl IH]; simpl; intros v H; [reflexivity |].
  rewrite (H c) by auto. apply IH. intros; apply H; auto.
Qed.

(** The result of a query for several addresses is the entry of the last
    one that has a match. *)
Lemma query_pass_last (obs : list Member) (cl : list Cluster) (c : Cluster)
    (m : Member) (v : Value) :
  find_member c obs = Some m ->
  query_pass obs (cl ++ [c]) v = VMember m.
Proof.
  revert v. induction cl as [| c0 cl IH]; simpl; intros v H.
  - now rewrite H.
  - apply IH. exact H.
Qed.

(** * Further properties of [main] *)

(** ** After the three reads *)

Section Observed.

Context {R : Type} (gw : Gateway R).

Lemma validate_absent (cls : option (list Cluster)) (s : ND R) :
  validate cls absent s = (Next tt, s).
Proof.
  apply (validate_well_formed (mkParams cls absent false)).
  unfold well_formed; simpl. destruct cls as [l |]; [| reflexivity].
  induction l; simpl; auto.
Qed.

Lemma gate_passes (name : string) (feds : option (list Federation))
    (st : State) (s : ND R) :
  gate_open name feds st = true ->
  (match feds with
   | Some (f0 :: fs) =>
       match find_federation name (f0 :: fs) with
       | None =>
           if negb (State_eqb st query)
           then fail_json msg_not_primary
           else ret tt
       | Some _ => ret tt
       end
   | _ => ret tt
   end) s = (Next tt, s).
Proof.
  unfold gate_open. destruct feds as [[| f0 fs] |]; try reflexivity.
  simpl. destruct (find_federation name (f0 :: fs)); [reflexivity |].
  rewrite orb_false_r. intros ->. reflexivity.
Qed.

Lemma main_absent_observed (cls : option (list Cluster)) (chk : bool) (r : R)
    (c : ClusterInfo) (cs : list ClusterInfo)
    (feds : option (list Federation)) (ms : option (list Member)) :
  list_clusters gw r = Replied (Some (c :: cs)) ->
  list_federations gw r = Replied feds ->
  gate_open (cluster_name c) feds absent = true ->
  list_members gw r = Replied ms ->
  main gw (mkParams cls absent chk) (mkND r [])
    = bind (main_absent gw chk (cluster_name c) feds ms (VItems ms))
           (fun e => exit_json (mkReport (VItems ms) e VEmpty))
           (mkND r observation).
Proof.
  intros Hc Hf Hg Hm.
  unfold main, required_if. simpl state. simpl clusters. simpl check_mode.
  unfold bind at 1. unfold ret at 1.
  unfold bind at 1. rewrite validate_absent.
  unfold bind at 1. unfold query_obj at 1. cbn [remote issued]. rewrite Hc.
  unfold bind at 1. unfold ret at 1.
  unfold bind at 1. unfold query_obj at 1. cbn [remote issued]. rewrite Hf.
  unfold bind at 1. rewrite (gate_passes _ _ _ _ Hg).
  unfold bind at 1. unfold query_obj at 1. cbn [remote issued]. rewrite Hm.
  rewrite andb_false_r. reflexivity.
Qed.

End Observed.

(** ** What a run never issues *)

Section Never.

Context {R : Type} (gw : Gateway R).

Lemma main_absent_any_clusters (cls : option (list Cluster)) (chk : bool)
    (s : ND R) :
  main gw (mkParams cls absent chk) s = main gw (mkParams None absent chk) s.
Proof.
  destruct cls as [[| c0 l] |]; try reflexivity.
  unfold main, required_if. cbn [state clusters check_mode].
  unfold bind at 1. unfold ret at 1.
  unfold bind at 1. rewrite (validate_absent (Some (c0 :: l))).
  reflexivity.
Qed.

Lemma emits_main_when_absent (cls : option (list Cluster)) (chk : bool) :
  emits not_post (main gw (mkParams cls absent chk)).
Proof.
  unfold main, required_if; simpl.
  apply emits_bind; [emits_auto | intros _].
  apply emits_bind; [apply emits_validate | intros _].
  unfold main_absent, absent_removals, absent_federation. emits_auto.
Qed.

Lemma emits_main_present_members (chk : bool) (name : string)
    (feds : option (list Federation)) (ms : option (list Member))
    (cl : list Cluster) (v : Value) :
  emits deletes_only_members (main_present gw chk name feds ms cl v).
Proof.
  unfold main_present, present_removals, present_additions.
  repeat emits_step;
    unfold deletes_only_members, get; simpl; intros;
    first [ discriminate
          | reflexivity
          | match goal with
            | |- prefix "" ?s = true => destruct s; reflexivity
            end ].
Qed.

End Never.

(** X1.  With state absent the [clusters] parameter is not looked at: the
    run, its calls and the dashboard afterwards are the same whatever
    clusters are given. *)
Theorem absent_ignores_clusters :
  forall (R : Type) (gw : Gateway R) (cls cls' : option (list Cluster))
         (chk : bool) (r : R),
    run gw (mkParams cls absent chk) r = run gw (mkParams cls' absent chk) r.
Proof.
  intros R gw cls cls' chk r. unfold run.
  rewrite (main_absent_any_clusters gw cls), (main_absent_any_clusters gw cls').
  reflexivity.
Qed.

(** X2.  A run with state absent issues no POST, whatever the dashboard
    answers. *)
Theorem absent_never_posts :
  forall (R : Type) (gw : Gateway R) (cls : option (list Cluster))
         (chk : bool) (r : R),
    Forall (fun c => c_method c <> POST) (calls_of gw (mkParams cls absent chk) r).
Proof.
  intros R gw cls chk r.
  apply (emits_calls_of gw not_post). apply emits_main_when_absent.
Qed.

(** X3.  A run with state present never deletes the federation: every
    DELETE it issues addresses an element of the member collection. *)
Theorem present_deletes_only_members :
  forall (R : Type) (gw : Gateway R) (cls : option (list Cluster))
         (chk : bool) (r : R),
    Forall (fun c => c_method c = DELETE ->
                     String.prefix "/nexus/api/federation/v4/members/" (c_path c)
                     = true)
           (calls_of gw (mkParams cls present chk) r).
Proof.
  intros R gw cls chk r.
  apply (emits_calls_of gw deletes_only_members).
  unfold main, required_if; simpl.
  apply emits_bind; [emits_auto; discriminate | intros _].
  apply emits_bind; [apply emits_validate | intros _].
  apply emits_bind; [emits_auto; discriminate | intros items].
  apply emits_bind; [emits_auto | intros name].
  apply emits_bind; [emits_auto; discriminate | intros feds].
  apply emits_bind; [emits_auto | intros _].
  apply emits_bind; [emits_auto; discriminate | intros ms].
  apply emits_bind; [apply emits_main_present_members | intros [v1 v2]].
  emits_auto.
Qed.

(** X4.  When the federation collection is read non-empty, no request to
    create a federation is issued, in any state and any check mode. *)
Theorem no_federation_post_when_one_exists :
  forall (R : Type) (gw : Gateway R) (p : Params) (r : R)
         (f : Federation) (fs : list Federation),
    list_federations gw r = Replied (Some (f :: fs)) ->
    Forall (fun c => is_post_federation c = false) (calls_of gw p r).
Proof.
  intros R gw p r f fs Hf.
  apply (emits_from_calls_of gw
           (fun r' => list_federations gw r' = Replied (Some (f :: fs)))
           (fun c => is_post_federation c = false)); [exact Hf |].
  assert (HP : forall c, is_read c -> is_post_federation c = false).
  { intros c Hc. unfold is_read in Hc. unfold is_post_federation.
    rewrite Hc. reflexivity. }
  unfold main.
  apply emits_from_reads_bind; [unfold required_if; reads_auto | exact HP | intros _].
  apply emits_from_reads_bind; [apply reads_validate | exact HP | intros _].
  apply emits_from_reads_bind; [reads_auto | exact HP | intros items].
  apply emits_from_reads_bind; [reads_auto | exact HP | intros name].
  apply emits_from_query_bind with (a := Some (f :: fs));
    [auto | reflexivity |].
  apply emits_from_emits.
  apply emits_bind; [emits_auto | intros _].
  apply emits_bind; [emits_auto; reflexivity | intros ms].
  destruct (state p).
  - unfold main_absent, absent_removals, absent_federation.
    emits_auto; reflexivity.
  - unfold main_present, present_removals, present_additions.
    cbn [truthy_list negb].
    repeat emits_step; reflexivity.
  - emits_auto.
Qed.

Lemma no_federation_post_when_one_exists_witness :
  Forall (fun c => is_post_federation c = false)
         (calls_of Dashboard.gateway
            (Sample.want [Sample.A; Sample.B] present false)
            (Sample.federated [])).
Proof.
  apply (no_federation_post_when_one_exists Dashboard.T Dashboard.gateway
           (Sample.want [Sample.A; Sample.B] present false)
           (Sample.federated [])
           (mkFederation Sample.primary "fed-nd-primary") [] eq_refl).
Defined.

(** ** The removal and addition lists *)

Lemma removal_pass_exact (name : string) (cl : list Cluster)
    (obs acc : list Member) :
  removal_pass name cl obs false acc
    = acc ++ filter (fun m => negb (is_local name m))
                    (before_first_desired name cl obs).
Proof.
  unfold is_local, is_desired.
  revert acc. induction obs as [| e obs IH]; simpl; intros acc.
  - now rewrite app_nil_r.
  - unfold is_local, is_desired.
    destruct (host e =? name)%string eqn:L; simpl.
    + rewrite L. simpl. apply IH.
    + rewrite scan_clusters_spec. simpl.
      destruct (existsb (same_host (host e)) cl); simpl.
      * rewrite removal_pass_after_match. now rewrite app_nil_r.
      * rewrite L. simpl. rewrite IH, <- app_assoc. reflexivity.
Qed.

(** X5.  The members state present schedules for removal are the observed
    members, other than the local cluster, that come before the first
    observed member that is desired; from that member on nothing is
    removed.  With at most one observed member nothing is removed. *)
Theorem removals_stop_at_first_desired :
  forall (name : string) (obs : list Member) (cl : list Cluster),
    fst (present_diff name obs cl)
      = if Nat.leb (List.length obs) 1 then []
        else filter (fun m => negb (is_local name m))
                    (before_first_desired name cl obs).
Proof.
  intros name obs cl. unfold present_diff.
  destruct (Nat.leb (List.length obs) 1); simpl; [reflexivity |].
  apply removal_pass_exact.
Qed.

(** X6.  State present never schedules the local cluster or a desired member
    for removal: every scheduled member is observed, is not the local
    cluster, and has no desired member of its host. *)
Theorem removals_spare_local_and_desired :
  forall (name : string) (obs : list Member) (cl : list Cluster),
    Forall (fun m => In m obs /\ host m <> name /\ is_desired cl m = false)
           (fst (present_diff name obs cl)).
Proof.
  intros name obs cl. unfold present_diff.
  destruct (Nat.leb (List.length obs) 1); simpl; [constructor |].
  destruct (removal_pass_sound name cl obs false []) as [more [E I]].
  rewrite E. simpl. apply Forall_forall. intros m Hm.
  apply I in Hm. unfold spec_removals in Hm. apply filter_In in Hm.
  destruct Hm as [Hin Hb]. apply andb_prop in Hb. destruct Hb as [Hl Hd].
  repeat split; auto.
  - intros Heq. rewrite Heq, String.eqb_refl in Hl. discriminate.
  - unfold is_desired. now apply negb_true_iff.
Qed.

(** X7.  With more than one observed member, the members state present
    schedules for addition are the desired members no observed member has
    the host of, in the order and as often as they were given. *)
Theorem additions_are_the_unobserved :
  forall (name : string) (obs : list Member) (cl : list Cluster),
    1 < List.length obs ->
    snd (present_diff name obs cl)
      = filter (fun u => negb (existsb (fun m => same_host (host m) u) obs)) cl.
Proof.
  intros name obs cl Hlen. unfold present_diff.
  destruct (Nat.leb_spec (List.length obs) 1); [lia |]. simpl.
  rewrite addition_pass_spec. reflexivity.
Qed.

Lemma additions_are_the_unobserved_witness :
  snd (present_diff Sample.primary
         [Sample.member Sample.primary; Sample.member Sample.A]
         [Sample.cluster Sample.B; Sample.cluster Sample.A;
          Sample.cluster Sample.B])
    = [Sample.cluster Sample.B; Sample.cluster Sample.B].
Proof.
  apply (additions_are_the_unobserved Sample.primary
           [Sample.member Sample.primary; Sample.member Sample.A]
           [Sample.cluster Sample.B; Sample.cluster Sample.A;
            Sample.cluster Sample.B]
           ltac:(simpl; lia)).
Defined.

(** ** State absent *)

Section Absent.

Context {R : Type} (gw : Gateway R).

Lemma run_of_main (p : Params) (r : R) (o : Outcome) (s : ND R) :
  main gw p (mkND r []) = (Halt o, s) -> run gw p r = (o, issued s, remote s).
Proof. intros E. unfold run. rewrite E. reflexivity. Qed.

Lemma absent_federation_starts (name : string)
    (feds : option (list Federation)) (s : ND R) :
  exists rest,
    issued (snd (absent_federation gw name feds s))
      = issued s ++ get member_path :: rest.
Proof.
  unfold absent_federation, bind, query_obj.
  destruct (list_members gw (remote s)) as [[remaining |] | msg]; simpl;
    try (exists []; reflexivity).
  destruct (Nat.eqb (List.length remaining) 1); [| exists []; reflexivity].
  destruct feds as [fl |]; [| exists []; reflexivity].
  destruct (find_federation name fl) as [f |]; [| exists []; reflexivity].
  unfold request; simpl.
  exists [delete (format_path federation_path (federationID f))].
  destruct (perform gw DELETE _ NoData (remote s)); simpl;
    now rewrite <- app_assoc.
Qed.

Lemma absent_removals_calls (Hgw : accepting gw) (name : string)
    (l : list Member) (s : ND R) :
  exists r',
    absent_removals gw name l s
      = (Next tt,
         mkND r' (issued s
                  ++ map removal_call
                       (filter (fun m => negb (is_local name m)) l))).
Proof.
  unfold absent_removals, is_local. revert s.
  induction l as [| m l IH]; simpl; intros s.
  - exists (remote s). unfold ret. rewrite app_nil_r. now destruct s.
  - unfold bind at 1.
    destruct (negb (host m =? name)%string); simpl.
    + destruct (request_accepted gw Hgw
                  (format_path member_path (memberID m)) DELETE NoData s)
        as [r1 E1].
      rewrite E1.
      destruct (IH (mkND r1 (issued s ++ [removal_call m]))) as [r' E].
      unfold removal_call in E at 1. unfold delete in E at 1.
      rewrite E. simpl.
      rewrite <- app_assoc. exists r'. reflexivity.
    + unfold ret at 1. apply IH.
Qed.

End Absent.

(** X8.  State absent with no member observed (an empty collection, or an
    answer without items) does nothing, in either check mode: no request
    after the three reads, an existing federation is left in place, and the
    observed collection is reported unchanged. *)
Theorem absent_without_members_is_noop :
  forall (R : Type) (gw : Gateway R) (cls : option (list Cluster))
         (chk : bool) (r : R) (c : ClusterInfo) (cs : list ClusterInfo)
         (feds : option (list Federation)) (ms : option (list Member)),
    list_clusters gw r = Replied (Some (c :: cs)) ->
    list_federations gw r = Replied feds ->
    gate_open (cluster_name c) feds absent = true ->
    list_members gw r = Replied ms ->
    truthy_list ms = false ->
    run gw (mkParams cls absent chk) r
      = (ExitJson (mkReport (VItems ms) (VItems ms) VEmpty), observation, r).
Proof.
  intros R gw cls chk r c cs feds ms Hc Hf Hg Hm Hms.
  apply (run_of_main gw _ r _ (mkND r observation)).
  rewrite (main_absent_observed gw cls chk r c cs feds ms Hc Hf Hg Hm).
  unfold main_absent, bind. simpl. rewrite Hms. reflexivity.
Qed.

Lemma absent_without_members_is_noop_witness :
  run Dashboard.gateway (mkParams None absent false) (Sample.federated [])
    = (ExitJson (mkReport (VItems (Some [])) (VItems (Some [])) VEmpty),
       observation, Sample.federated []).
Proof.
  apply (absent_without_members_is_noop Dashboard.T Dashboard.gateway None
           false (Sample.federated []) (mkClusterInfo Sample.primary) []
           (Some [mkFederation Sample.primary "fed-nd-primary"]) (Some [])
           eq_refl eq_refl eq_refl eq_refl eq_refl).
Defined.

(** X9.  State absent under check mode, some member observed: no request
    after the three reads, the dashboard as it was, and the report says
    existing is empty while previous holds the observed collection. *)
Theorem absent_check_mode_previews :
  forall (R : Type) (gw : Gateway R) (cls : option (list Cluster)) (r : R)
         (c : ClusterInfo) (cs : list ClusterInfo)
         (feds : option (list Federation)) (m : Member) (l : list Member),
    list_clusters gw r = Replied (Some (c :: cs)) ->
    list_federations gw r = Replied feds ->
    gate_open (cluster_name c) feds absent = true ->
    list_members gw r = Replied (Some (m :: l)) ->
    run gw (mkParams cls absent true) r
      = (ExitJson (mkReport (VItems (Some (m :: l))) VEmpty VEmpty),
         observation, r).
Proof.
  intros R gw cls r c cs feds m l Hc Hf Hg Hm.
  apply (run_of_main gw _ r _ (mkND r observation)).
  rewrite (main_absent_observed gw cls true r c cs feds _ Hc Hf Hg Hm).
  reflexivity.
Qed.

Lemma absent_check_mode_previews_witness :
  run Dashboard.gateway (mkParams None absent true)
      (Sample.federated [Sample.member Sample.primary; Sample.member Sample.C])
    = (ExitJson
         (mkReport
            (VItems (Some [Sample.member Sample.primary; Sample.member Sample.C]))
            VEmpty VEmpty),
       observation,
       Sample.federated [Sample.member Sample.primary; Sample.member Sample.C]).
Proof.
  apply (absent_check_mode_previews Dashboard.T Dashboard.gateway None
           (Sample.federated [Sample.member Sample.primary;
                              Sample.member Sample.C])
           (mkClusterInfo Sample.primary) []
           (Some [mkFederation Sample.primary "fed-nd-primary"])
           (Sample.member Sample.primary) [Sample.member Sample.C]
           eq_refl eq_refl eq_refl eq_refl).
Defined.

(** X10.  State absent outside check mode, on a dashboard that carries out
    every request: after the three reads the run issues one DELETE for each
    observed member whose host is not the local cluster's name, in the
    observed order and whatever clusters were asked for, and then reads the
    member collection again. *)
Theorem absent_deletes_every_other_member :
  forall (R : Type) (gw : Gateway R) (cls : option (list Cluster)) (r : R)
         (c : ClusterInfo) (cs : list ClusterInfo)
         (feds : option (list Federation)) (m : Member) (l : list Member),
    accepting gw ->
    list_clusters gw r = Replied (Some (c :: cs)) ->
    list_federations gw r = Replied feds ->
    gate_open (cluster_name c) feds absent = true ->
    list_members gw r = Replied (Some (m :: l)) ->
    exists rest,
      calls_of gw (mkParams cls absent false) r
        = observation
          ++ map removal_call
               (filter (fun x => negb (is_local (cluster_name c) x)) (m :: l))
          ++ get member_path :: rest.
Proof.
  intros R gw cls r c cs feds m l Hgw Hc Hf Hg Hm.
  rewrite calls_of_main.
  rewrite (main_absent_observed gw cls false r c cs feds _ Hc Hf Hg Hm).
  unfold main_absent. cbn [truthy_value truthy_list negb].
  unfold bind at 1. unfold bind at 1. unfold bind at 1.
  destruct (absent_removals_calls gw Hgw (cluster_name c) (m :: l)
              (mkND r observation)) as [r1 E1].
  rewrite E1.
  destruct (absent_federation_starts gw (cluster_name c) feds
              (mkND r1 (issued (mkND r observation)
                        ++ map removal_call
                             (filter (fun x => negb (is_local (cluster_name c) x))
                                     (m :: l)))))
    as [rest E2].
  exists rest.
  destruct (absent_federation gw (cluster_name c) feds _) as [[[] | o] s2];
    simpl in *; rewrite E2; reflexivity.
Qed.

Lemma lenient_accepting : accepting Dashboard.lenient.
Proof.
  intros method path data r. unfold Dashboard.lenient, perform.
  destruct (Dashboard.write method path data r) as [r' | msg]; eauto.
Defined.

Lemma absent_deletes_every_other_member_witness :
  exists rest,
    calls_of Dashboard.lenient (Sample.want [Sample.A] absent false)
             (Sample.federated [Sample.member Sample.primary;
                                Sample.member Sample.A; Sample.member Sample.C])
      = observation
        ++ [removal_call (Sample.member Sample.A);
            removal_call (Sample.member Sample.C)]
        ++ get member_path :: rest.
Proof.
  apply (absent_deletes_every_other_member Dashboard.T Dashboard.lenient
           (Some [Sample.cluster Sample.A])
           (Sample.federated [Sample.member Sample.primary;
                              Sample.member Sample.A; Sample.member Sample.C])
           (mkClusterInfo Sample.primary) []
           (Some [mkFederation Sample.primary "fed-nd-primary"])
           (Sample.member Sample.primary)
           [Sample.member Sample.A; Sample.member Sample.C]
           lenient_accepting eq_refl eq_refl eq_refl eq_refl).
Defined.

(** ** State query *)

Section Query.

Context {R : Type} (gw : Gateway R).

Lemma main_query_observed (cls : option (list Cluster)) (chk : bool) (r : R)
    (c : ClusterInfo) (cs : list ClusterInfo)
    (feds : option (list Federation)) (ms : option (list Member)) :
  well_formed (mkParams cls query chk) = true ->
  list_clusters gw r = Replied (Some (c :: cs)) ->
  list_federations gw r = Replied feds ->
  list_members gw r = Replied ms ->
  main gw (mkParams cls query chk) (mkND r [])
    = (Halt (ExitJson
               (mkReport
                  (if truthy_list cls
                   then match ms with
                        | Some (m0 :: l) =>
                            query_pass (m0 :: l)
                              (match cls with Some x => x | None => [] end)
                              VEmpty
                        | _ => VEmpty
                        end
                   else VItems ms)
                  (if truthy_list cls
                   then match ms with
                        | Some (m0 :: l) =>
                            query_pass (m0 :: l)
                              (match cls with Some x => x | None => [] end)
                              VEmpty
                        | _ => VEmpty
                        end
                   else VItems ms)
                  VEmpty)),
       mkND r observation).
Proof.
  intros W Hc Hf Hm.
  assert (Hg : gate_open (cluster_name c) feds query = true).
  { unfold gate_open. simpl. now rewrite orb_true_r. }
  unfold main, required_if. simpl state. simpl clusters. simpl check_mode.
  unfold bind at 1. unfold ret at 1.
  unfold bind at 1.
  rewrite (validate_well_formed (mkParams cls query chk) _ W).
  unfold bind at 1. unfold query_obj at 1. cbn [remote issued]. rewrite Hc.
  unfold bind at 1. unfold ret at 1.
  unfold bind at 1. unfold query_obj at 1. cbn [remote issued]. rewrite Hf.
  unfold bind at 1. rewrite (gate_passes _ _ _ _ Hg).
  unfold bind at 1. unfold query_obj at 1. cbn [remote issued]. rewrite Hm.
  rewrite andb_true_r. reflexivity.
Qed.

Lemma query_pass_cases (obs : list Member) (cl : list Cluster) (v0 : Value) :
  query_pass obs cl v0 = v0
  \/ exists m, query_pass obs cl v0 = VMember m
               /\ In m obs /\ is_desired cl m = true.
Proof.
  revert v0. induction cl as [| c cl IH]; simpl; intros v0; [now left |].
  unfold find_member, is_desired.
  destruct (find (fun m => same_host (host m) c) obs) as [m |] eqn:F.
  - apply find_some in F. destruct F as [Hin Hh].
    right. destruct (IH (VMember m)) as [E | [m' [E [Hin' Hd']]]].
    + exists m. rewrite E. simpl. rewrite Hh. auto.
    + exists m'. rewrite E. unfold is_desired in Hd'. simpl. rewrite Hd'.
      rewrite orb_true_r. auto.
  - destruct (IH v0) as [E | [m' [E [Hin' Hd']]]]; [now left |].
    right. exists m'. unfold is_desired in Hd'. simpl. rewrite Hd'.
    rewrite orb_true_r. auto.
Qed.

End Query.

(** X11.  State query without clusters (none given, or an empty list)
    returns the member collection as read, as existing and as previous,
    after the three reads; this also holds when the local cluster is not the
    primary of the federation. *)
Theorem query_all_returns_collection :
  forall (R : Type) (gw : Gateway R) (cls : option (list Cluster))
         (chk : bool) (r : R) (c : ClusterInfo) (cs : list ClusterInfo)
         (feds : option (list Federation)) (ms : option (list Member)),
    truthy_list cls = false ->
    list_clusters gw r = Replied (Some (c :: cs)) ->
    list_federations gw r = Replied feds ->
    list_members gw r = Replied ms ->
    run gw (mkParams cls query chk) r
      = (ExitJson (mkReport (VItems ms) (VItems ms) VEmpty), observation, r).
Proof.
  intros R gw cls chk r c cs feds ms Hcls Hc Hf Hm.
  assert (W : well_formed (mkParams cls query chk) = true).
  { destruct cls as [[| c0 l] |]; try reflexivity. discriminate. }
  apply (run_of_main gw _ r _ (mkND r observation)).
  rewrite (main_query_observed gw cls chk r c cs feds ms W Hc Hf Hm).
  rewrite Hcls. reflexivity.
Qed.

Lemma query_all_returns_collection_witness :
  run Dashboard.gateway (mkParams None query false)
      (Sample.foreign [Sample.member "nd-other"; Sample.member Sample.A])
    = (ExitJson
         (mkReport
            (VItems (Some [Sample.member "nd-other"; Sample.member Sample.A]))
            (VItems (Some [Sample.member "nd-other"; Sample.member Sample.A]))
            VEmpty),
       observation,
       Sample.foreign [Sample.member "nd-other"; Sample.member Sample.A]).
Proof.
  apply (query_all_returns_collection Dashboard.T Dashboard.gateway None false
           (Sample.foreign [Sample.member "nd-other"; Sample.member Sample.A])
           (mkClusterInfo Sample.primary) []
           (Some [mkFederation "nd-other" "fed-nd-other"])
           (Some [Sample.member "nd-other"; Sample.member Sample.A])
           eq_refl eq_refl eq_refl eq_refl).
Defined.

(** X12.  State query for given clusters, each with a hostname: the run
    exits normally after the three reads, and what it returns is either the
    empty dict or one single observed member whose host is one of the
    requested hostnames; it is never a list and never an error for a
    hostname without a member. *)
Theorem query_returns_one_member_or_nothing :
  forall (R : Type) (gw : Gateway R) (u : Cluster) (cl : list Cluster)
         (chk : bool) (r : R) (c : ClusterInfo) (cs : list ClusterInfo)
         (feds : option (list Federation)) (ms : option (list Member)),
    forallb (fun x => truthy_str (cluster_hostname x)) (u :: cl) = true ->
    list_clusters gw r = Replied (Some (c :: cs)) ->
    list_federations gw r = Replied feds ->
    list_members gw r = Replied ms ->
    exists v,
      run gw (mkParams (Some (u :: cl)) query chk) r
        = (ExitJson (mkReport v v VEmpty), observation, r)
      /\ (v = VEmpty
          \/ exists m, v = VMember m
                       /\ In m (match ms with Some l => l | None => [] end)
                       /\ is_desired (u :: cl) m = true).
Proof.
  intros R gw u cl chk r c cs feds ms W Hc Hf Hm.
  eexists. split.
  - apply (run_of_main gw _ r _ (mkND r observation)).
    rewrite (main_query_observed gw (Some (u :: cl)) chk r c cs feds ms W
               Hc Hf Hm).
    reflexivity.
  - cbn [truthy_list].
    destruct ms as [[| m0 l] |]; try (left; reflexivity).
    apply query_pass_cases.
Qed.

Lemma query_returns_one_member_or_nothing_witness :
  exists v,
    run Dashboard.gateway (Sample.want [Sample.A; Sample.C] query false)
        (Sample.federated [Sample.member Sample.primary; Sample.member Sample.A])
      = (ExitJson (mkReport v v VEmpty), observation,
         Sample.federated [Sample.member Sample.primary; Sample.member Sample.A])
    /\ (v = VEmpty
        \/ exists m, v = VMember m
                     /\ In m [Sample.member Sample.primary; Sample.member Sample.A]
                     /\ is_desired [Sample.cluster Sample.A; Sample.cluster Sample.C] m
                        = true).
Proof.
  apply (query_returns_one_member_or_nothing Dashboard.T Dashboard.gateway
           (Sample.cluster Sample.A) [Sample.cluster Sample.C] false
           (Sample.federated [Sample.member Sample.primary; Sample.member Sample.A])
           (mkClusterInfo Sample.primary) []
           (Some [mkFederation Sample.primary "fed-nd-primary"])
           (Some [Sample.member Sample.primary; Sample.member Sample.A])
           eq_refl eq_refl eq_refl eq_refl).
Defined.

(** ** State present *)

Section Present.

Context {R : Type} (gw : Gateway R).

Lemma main_present_observed (l : list Cluster) (chk : bool) (r : R)
    (c : ClusterInfo) (cs : list ClusterInfo)
    (feds : option (list Federation)) (ms : option (list Member)) :
  forallb (complete present) l = true ->
  list_clusters gw r = Replied (Some (c :: cs)) ->
  list_federations gw r = Replied feds ->
  gate_open (cluster_name c) feds present = true ->
  list_members gw r = Replied ms ->
  main gw (mkParams (Some l) present chk) (mkND r [])
    = bind (main_present gw chk (cluster_name c) feds ms l (VItems ms))
           (fun x => match x with
                     | (e, pr) => exit_json (mkReport (VItems ms) e pr)
                     end)
           (mkND r observation).
Proof.
  intros W Hc Hf Hg Hm.
  unfold main, required_if. simpl state. simpl clusters. simpl check_mode.
  unfold bind at 1. unfold ret at 1.
  unfold bind at 1.
  rewrite (validate_well_formed (mkParams (Some l) present chk) _ W).
  unfold bind at 1. unfold query_obj at 1. cbn [remote issued]. rewrite Hc.
  unfold bind at 1. unfold ret at 1.
  unfold bind at 1. unfold query_obj at 1. cbn [remote issued]. rewrite Hf.
  unfold bind at 1. rewrite (gate_passes _ _ _ _ Hg).
  unfold bind at 1. unfold query_obj at 1. cbn [remote issued]. rewrite Hm.
  rewrite andb_false_r. reflexivity.
Qed.

Lemma record_post_all (d : option (list string)) (acc l : list MemberPayload) :
  fold_left record_post l (mkPayloadDict d (Some acc))
    = mkPayloadDict d (Some (acc ++ l)).
Proof.
  revert acc. induction l as [| x l IH]; simpl; intros acc.
  - now rewrite app_nil_r.
  - unfold record_post at 2. simpl. rewrite IH, <- app_assoc. reflexivity.
Qed.

Lemma record_post_first (d : option (list string)) (x : MemberPayload)
    (l : list MemberPayload) :
  fold_left record_post (x :: l) (mkPayloadDict d None)
    = mkPayloadDict d (Some (x :: l)).
Proof.
  simpl.
  change (record_post (mkPayloadDict d None) x)
    with (mkPayloadDict d (Some [x])).
  rewrite record_post_all. reflexivity.
Qed.

(** Under check mode the addition loop only fills in [payload_dict]. *)
Lemma present_additions_check_mode (name : string)
    (feds : option (list Federation)) (ad : list Cluster) (pd : PayloadDict)
    (s : ND R) :
  forallb (complete present) ad = true ->
  present_additions gw true name feds ad pd s
    = (Next (fold_left record_post (map payload_of ad) pd), s).
Proof.
  unfold present_additions. revert pd.
  induction ad as [| u ad IH]; simpl; intros pd W; [reflexivity |].
  apply andb_prop in W. destruct W as [Wu Wad].
  assert (P : forall pw, cluster_password u = Some pw ->
                         payload_of u = cluster_payload u pw).
  { intros pw E. unfold payload_of. now rewrite E. }
  destruct (cluster_password u) as [pw |].
  - rewrite (P pw eq_refl).
    unfold bind at 1. unfold bind at 1. unfold ret at 1. unfold ret at 1.
    apply IH. exact Wad.
  - rewrite andb_false_r in Wu. discriminate.
Qed.

End Present.

(** X13.  State present, when the answer for the member collection carries
    no items: the run ends in an uncaught TypeError right after the three
    reads, nothing written. *)
Theorem present_without_items_raises :
  forall (R : Type) (gw : Gateway R) (l : list Cluster) (chk : bool) (r : R)
         (c : ClusterInfo) (cs : list ClusterInfo)
         (feds : option (list Federation)),
    forallb (complete present) l = true ->
    list_clusters gw r = Replied (Some (c :: cs)) ->
    list_federations gw r = Replied feds ->
    gate_open (cluster_name c) feds present = true ->
    list_members gw r = Replied None ->
    run gw (mkParams (Some l) present chk) r
      = (Uncaught "TypeError", observation, r).
Proof.
  intros R gw l chk r c cs feds W Hc Hf Hg Hm.
  apply (run_of_main gw _ r _ (mkND r observation)).
  rewrite (main_present_observed gw l chk r c cs feds None W Hc Hf Hg Hm).
  reflexivity.
Qed.

Lemma present_without_items_raises_witness :
  run Dashboard.not_found (Sample.want [Sample.A] present false)
      (Sample.unfederated [])
    = (Uncaught "TypeError", observation, Sample.unfederated []).
Proof.
  apply (present_without_items_raises Dashboard.T Dashboard.not_found
           [Sample.cluster Sample.A] false (Sample.unfederated [])
           (mkClusterInfo Sample.primary) [] None
           eq_refl eq_refl eq_refl eq_refl eq_refl).
Defined.

(** X14.  State present with nothing to do (every desired member observed,
    every observed member the local cluster or desired, more than one
    member observed): the run exits after the three reads with existing
    equal to previous and nothing proposed. *)
Theorem present_converged_reports_no_change :
  forall (R : Type) (gw : Gateway R) (l : list Cluster) (chk : bool) (r : R)
         (c : ClusterInfo) (cs : list ClusterInfo)
         (feds : option (list Federation)) (obs : list Member),
    forallb (complete present) l = true ->
    list_clusters gw r = Replied (Some (c :: cs)) ->
    list_federations gw r = Replied feds ->
    gate_open (cluster_name c) feds present = true ->
    list_members gw r = Replied (Some obs) ->
    1 < List.length obs ->
    forallb (fun u => existsb (fun m => same_host (host m) u) obs) l = true ->
    forallb (fun m => is_local (cluster_name c) m || is_desired l m) obs = true ->
    run gw (mkParams (Some l) present chk) r
      = (ExitJson (mkReport (VItems (Some obs)) (VItems (Some obs)) VEmpty),
         observation, r).
Proof.
  intros R gw l chk r c cs feds obs W Hc Hf Hg Hm Hlen Hadd Hrem.
  assert (D : present_diff (cluster_name c) obs l = ([], [])).
  { apply present_diff_converged.
    - intros u Hu. rewrite forallb_forall in Hadd. auto.
    - intros e He Hne. rewrite forallb_forall in Hrem.
      specialize (Hrem e He). unfold is_local, is_desired in Hrem.
      apply orb_prop in Hrem. destruct Hrem as [Hl | Hd]; [| exact Hd].
      apply String.eqb_eq in Hl. contradiction.
    - right. exact Hlen. }
  apply (run_of_main gw _ r _ (mkND r observation)).
  rewrite (main_present_observed gw l chk r c cs feds _ W Hc Hf Hg Hm).
  unfold main_present. rewrite D. reflexivity.
Qed.

Lemma present_converged_reports_no_change_witness :
  run Dashboard.gateway (Sample.want [Sample.A] present false)
      (Sample.federated [Sample.member Sample.primary; Sample.member Sample.A])
    = (ExitJson
         (mkReport
            (VItems (Some [Sample.member Sample.primary; Sample.member Sample.A]))
            (VItems (Some [Sample.member Sample.primary; Sample.member Sample.A]))
            VEmpty),
       observation,
       Sample.federated [Sample.member Sample.primary; Sample.member Sample.A]).
Proof.
  apply (present_converged_reports_no_change Dashboard.T Dashboard.gateway
           [Sample.cluster Sample.A] false
           (Sample.federated [Sample.member Sample.primary;
                              Sample.member Sample.A])
           (mkClusterInfo Sample.primary) []
           (Some [mkFederation Sample.primary "fed-nd-primary"])
           [Sample.member Sample.primary; Sample.member Sample.A]
           eq_refl eq_refl eq_refl eq_refl eq_refl
           ltac:(simpl; lia) eq_refl eq_refl).
Defined.

(** X15.  State present under check mode with at most one observed member
    and at least one desired: the run issues nothing after the three reads,
    leaves the dashboard alone, and reports, as existing and as proposed,
    a "POST" list holding the payload of every desired member in order and
    no "DELETE" key. *)
Theorem check_mode_bootstrap_previews :
  forall (R : Type) (gw : Gateway R) (u : Cluster) (l : list Cluster) (r : R)
         (c : ClusterInfo) (cs : list ClusterInfo)
         (feds : option (list Federation)) (obs : list Member),
    forallb (complete present) (u :: l) = true ->
    list_clusters gw r = Replied (Some (c :: cs)) ->
    list_federations gw r = Replied feds ->
    gate_open (cluster_name c) feds present = true ->
    list_members gw r = Replied (Some obs) ->
    List.length obs <= 1 ->
    run gw (mkParams (Some (u :: l)) present true) r
      = (ExitJson
           (mkReport
              (VItems (Some obs))
              (VPayloads (mkPayloadDict None (Some (map payload_of (u :: l)))))
              (VPayloads (mkPayloadDict None (Some (map payload_of (u :: l)))))),
         observation, r).
Proof.
  intros R gw u l r c cs feds obs W Hc Hf Hg Hm Hlen.
  apply (run_of_main gw _ r _ (mkND r observation)).
  rewrite (main_present_observed gw (u :: l) true r c cs feds _ W Hc Hf Hg Hm).
  unfold main_present.
  destruct (main_present_bootstrap R gw true (cluster_name c) feds obs (u :: l)
              (VItems (Some obs)) Hlen) as [D _].
  rewrite D.
  unfold bind at 1. unfold bind at 1.
  unfold present_removals. simpl for_fold. unfold ret at 1.
  unfold bind at 1.
  rewrite (present_additions_check_mode gw (cluster_name c) feds (u :: l) _ _ W).
  change (fold_left record_post (map payload_of (u :: l))
            (mkPayloadDict None None))
    with (fold_left record_post (payload_of u :: map payload_of l)
            (mkPayloadDict None None)).
  rewrite (record_post_first None (payload_of u) (map payload_of l)).
  reflexivity.
Qed.

Lemma check_mode_bootstrap_previews_witness :
  run Dashboard.gateway (Sample.want [Sample.A; Sample.B] present true)
      (Sample.unfederated [])
    = (ExitJson
         (mkReport
            (VItems (Some []))
            (VPayloads (mkPayloadDict None
                          (Some [Sample.payload Sample.A; Sample.payload Sample.B])))
            (VPayloads (mkPayloadDict None
                          (Some [Sample.payload Sample.A; Sample.payload Sample.B])))),
       observation, Sample.unfederated []).
Proof.
  apply (check_mode_bootstrap_previews Dashboard.T Dashboard.gateway
           (Sample.cluster Sample.A) [Sample.cluster Sample.B]
           (Sample.unfederated []) (mkClusterInfo Sample.primary) []
           (Some []) [] eq_refl eq_refl eq_refl eq_refl eq_refl
           ltac:(simpl; lia)).
Defined.

(** ** Before the dashboard is observed *)

Section Early.

Context {R : Type} (gw : Gateway R).

Lemma validate_refuses (st : State) (l : list Cluster) (s : ND R) :
  forallb (complete st) l = false ->
  validate (Some l) st s
    = (Halt (FailJson (match st with
                       | present => msg_present_fields
                       | _ => msg_query_hostname
                       end)), s).
Proof.
  unfold validate. intros F.
  destruct l as [| c0 l0]; [discriminate |].
  unfold truthy_list.
  generalize dependent (c0 :: l0). clear c0 l0.
  induction l as [| c l IH]; simpl; intros F; [discriminate |].
  unfold bind at 1.
  destruct (complete st c) eqn:Fc; simpl in F.
  - destruct st; simpl in Fc; try rewrite Fc; simpl; auto.
  - destruct st; simpl in Fc; try rewrite Fc; simpl; auto. discriminate.
Qed.

End Early.

(** X16.  Parameters the validation of lines 142-149 refuses (state present
    and a cluster without hostname, username or password; state query and a
    cluster without hostname) end the run in [fail_json] with the message of
    that state before any request is issued. *)
Theorem incomplete_cluster_fails_before_any_call :
  forall (R : Type) (gw : Gateway R) (st : State) (l : list Cluster)
         (chk : bool) (r : R),
    forallb (complete st) l = false ->
    run gw (mkParams (Some l) st chk) r
      = (FailJson (match st with
                   | present => msg_present_fields
                   | _ => msg_query_hostname
                   end), [], r).
Proof.
  intros R gw st l chk r F.
  apply (run_of_main gw _ r _ (mkND r [])).
  unfold main, required_if. simpl state. simpl clusters.
  unfold bind at 1.
  assert (E : (match st with
               | present => @ret R unit tt
               | _ => ret tt
               end) (mkND r []) = (Next tt, mkND r [])) by (destruct st; reflexivity).
  rewrite E. unfold bind at 1. rewrite (validate_refuses st l _ F).
  reflexivity.
Qed.

Lemma incomplete_cluster_fails_before_any_call_witness :
  run Dashboard.gateway
      (mkParams (Some [Sample.cluster Sample.A;
                       mkCluster (Some Sample.B) (Some "admin") None "DefaultAuth"])
                present false)
      (Sample.federated [])
    = (FailJson msg_present_fields, [], Sample.federated []).
Proof.
  apply (incomplete_cluster_fails_before_any_call Dashboard.T Dashboard.gateway
           present
           [Sample.cluster Sample.A;
            mkCluster (Some Sample.B) (Some "admin") None "DefaultAuth"]
           false (Sample.federated []) eq_refl).
Defined.

(** X17.  When the platform's cluster collection comes back empty or without
    items, a run whose parameters pass validation ends in an uncaught
    exception (IndexError, resp. TypeError) right after that first read:
    the federation and the members are not read and nothing is written. *)
Theorem no_local_cluster_raises :
  forall (R : Type) (gw : Gateway R) (p : Params) (r : R)
         (items : option (list ClusterInfo)),
    well_formed p = true ->
    list_clusters gw r = Replied items ->
    items = None \/ items = Some [] ->
    run gw p r
      = (Uncaught (match items with
                   | None => "TypeError"
                   | Some _ => "IndexError"
                   end),
         [get clusters_path], r).
Proof.
  intros R gw p r items W Hc Hi.
  apply (run_of_main gw _ r _ (mkND r [get clusters_path])).
  unfold main. unfold bind at 1.
  assert (Hreq : required_if p (mkND r []) = (Next tt, mkND r [])).
  { unfold well_formed in W. unfold required_if.
    destruct (state p), (clusters p); try reflexivity; discriminate. }
  rewrite Hreq.
  unfold bind at 1. rewrite (validate_well_formed p _ W).
  unfold bind at 1. unfold query_obj at 1. cbn [remote issued]. rewrite Hc.
  destruct Hi as [-> | ->]; reflexivity.
Qed.

Lemma no_local_cluster_raises_witness :
  run Dashboard.gateway (mkParams None query false) (Dashboard.mk [] [] [])
    = (Uncaught "IndexError", [get clusters_path], Dashboard.mk [] [] []).
Proof.
  apply (no_local_cluster_raises Dashboard.T Dashboard.gateway
           (mkParams None query false) (Dashboard.mk [] [] []) (Some [])
           eq_refl eq_refl (or_intror eq_refl)).
Defined.

(** ** The password in the payload *)

Lemma encode_bytes_length (l : list N) :
  String.length (Base64.encode_bytes l) = 4 * ((List.length l + 2) / 3).
Proof.
  assert (H : forall n (l : list N), List.length l <= n ->
            String.length (Base64.encode_bytes l)
              = 4 * ((List.length l + 2) / 3)).
  { induction n as [| n IH]; intros l0 Hl.
    - destruct l0; [reflexivity | simpl in Hl; lia].
    - destruct l0 as [| a [| b [| c0 rest]]]; try reflexivity.
      cbn [Base64.encode_bytes String.length List.length].
      rewrite IH by (simpl in Hl; lia).
      replace (S (S (S (List.length rest))) + 2)
        with (1 * 3 + (List.length rest + 2)) by lia.
      rewrite Nat.div_add_l by lia. lia. }
  apply (H (List.length l)). lia.
Qed.

Lemma list_ascii_length (s : string) :
  List.length (list_ascii_of_string s) = String.length s.
Proof. induction s; simpl; auto. Qed.

Lemma b64encode_length (s : string) :
  String.length (Base64.b64encode s) = 4 * ((String.length s + 2) / 3).
Proof.
  unfold Base64.b64encode.
  now rewrite encode_bytes_length, length_map, list_ascii_length.
Qed.

(** X18.  The password field of a member payload is four characters for
    every three bytes of password, rounded up; it is therefore never the
    password as given, unless that is empty. *)
Theorem payload_password_is_encoded :
  forall (member : Cluster) (password : string),
    String.length (p_password (cluster_payload member password))
      = 4 * ((String.length password + 2) / 3)
    /\ (password <> "" -> p_password (cluster_payload member password) <> password).
Proof.
  intros member password. simpl. rewrite b64encode_length.
  split; [reflexivity |].
  intros Hne Heq.
  assert (L : String.length (Base64.b64encode password) = String.length password)
    by (now rewrite Heq).
  rewrite b64encode_length in L.
  destruct password as [| a rest]; [congruence |].
  simpl String.length in L.
  pose proof (Nat.div_mod_eq (S (String.length rest) + 2) 3) as D.
  pose proof (Nat.mod_upper_bound (S (String.length rest) + 2) 3) as U.
  lia.
Qed.

Lemma payload_password_is_encoded_witness :
  String.length (p_password (cluster_payload (Sample.cluster Sample.A) "password"))
    = 12
  /\ p_password (cluster_payload (Sample.cluster Sample.A) "password")
     <> "password".
Proof.
  destruct (payload_password_is_encoded (Sample.cluster Sample.A) "password")
    as [L N].
  split; [exact L | apply N; discriminate].
Defined.

(** ** A whole run of state present *)

Lemma additions_are_desired (name : string) (obs : list Member)
    (l : list Cluster) (u : Cluster) :
  In u (snd (present_diff name obs l)) -> In u l.
Proof.
  unfold present_diff.
  destruct (Nat.leb (List.length obs) 1); simpl; [auto |].
  rewrite addition_pass_spec, app_nil_l. unfold spec_additions.
  intros H. apply filter_In in H. tauto.
Qed.

Lemma complete_has_password (l : list Cluster) :
  forallb (complete present) l = true ->
  Forall (fun u => cluster_password u <> None) l.
Proof.
  intros W. apply Forall_forall. intros u Hu.
  rewrite forallb_forall in W. specialize (W u Hu). simpl in W.
  destruct (cluster_password u); [discriminate |].
  rewrite andb_false_r in W. discriminate.
Qed.

(** X19.  State present outside check mode, with something to do, on a
    dashboard that carries out every request: after the three reads the run
    issues one DELETE per member scheduled for removal, in order, then the
    POSTs of the members scheduled for addition, in order (each preceded by
    the POST creating the federation when none was read), then reads the
    member collection once more, and nothing else. *)
Theorem present_run_issues_plan_in_order :
  forall (R : Type) (gw : Gateway R) (l : list Cluster) (r : R)
         (c : ClusterInfo) (cs : list ClusterInfo)
         (feds : option (list Federation)) (obs rm : list Member)
         (ad : list Cluster),
    accepting gw ->
    forallb (complete present) l = true ->
    list_clusters gw r = Replied (Some (c :: cs)) ->
    list_federations gw r = Replied feds ->
    gate_open (cluster_name c) feds present = true ->
    list_members gw r = Replied (Some obs) ->
    present_diff (cluster_name c) obs l = (rm, ad) ->
    rm <> [] \/ ad <> [] ->
    calls_of gw (mkParams (Some l) present false) r
      = observation ++ map removal_call rm
        ++ flat_map (addition_calls (cluster_name c) feds) ad
        ++ [get member_path].
Proof.
  intros R gw l r c cs feds obs rm ad Hgw W Hc Hf Hg Hm D Hne.
  assert (Hpw : Forall (fun u => cluster_password u <> None) ad).
  { apply Forall_forall. intros u Hu.
    pose proof (complete_has_password l W) as F.
    rewrite Forall_forall in F. apply F.
    apply (additions_are_desired (cluster_name c) obs). rewrite D. exact Hu. }
  rewrite calls_of_main.
  rewrite (main_present_observed gw l false r c cs feds _ W Hc Hf Hg Hm).
  unfold main_present. rewrite D.
  assert (E : forall v : Value,
            issued (snd (bind
              (payload_dict <- present_removals gw rm (mkPayloadDict None None) ;;
               payload_dict <- present_additions gw false (cluster_name c) feds
                                 ad payload_dict ;;
               (if negb false
                then items <- query_obj member_path (list_members gw) ;;
                     ret (VItems items, VPayloads payload_dict)
                else ret (VPayloads payload_dict, VPayloads payload_dict)))
              (fun x : Value * Value =>
                 match x with
                 | (e, pr) => @exit_json R Empty_set (mkReport v e pr)
                 end)
              (mkND r observation)))
            = observation ++ map removal_call rm
              ++ flat_map (addition_calls (cluster_name c) feds) ad
              ++ [get member_path]).
  { intros v. cbn [negb].
    unfold bind at 1. unfold bind at 1.
    destruct (present_removals_calls gw Hgw rm (mkPayloadDict None None)
                (mkND r observation)) as [pd1 [r1 E1]].
    rewrite E1.
    unfold bind at 1.
    destruct (present_additions_calls gw Hgw (cluster_name c) feds ad pd1
                (mkND r1 (issued (mkND r observation) ++ map removal_call rm))
                Hpw) as [pd2 [r2 E2]].
    rewrite E2.
    unfold bind at 1. unfold query_obj at 1. cbn [remote issued].
    destruct (list_members gw r2); simpl; rewrite <- !app_assoc;
      reflexivity. }
  destruct ad as [| u ad'], rm as [| m rm']; try apply E.
  destruct Hne; congruence.
Qed.

Lemma present_run_issues_plan_in_order_witness :
  calls_of Dashboard.lenient
           (mkParams (Some [Sample.cluster Sample.B]) present false)
           (Sample.federated [Sample.member Sample.primary; Sample.member Sample.C])
    = observation ++ map removal_call [Sample.member Sample.C]
      ++ flat_map (addition_calls (cluster_name (mkClusterInfo Sample.primary))
                     (Some [mkFederation Sample.primary "fed-nd-primary"]))
                  [Sample.cluster Sample.B]
      ++ [get member_path].
Proof.
  eapply (present_run_issues_plan_in_order Dashboard.T Dashboard.lenient
            [Sample.cluster Sample.B]
            (Sample.federated [Sample.member Sample.primary;
                               Sample.member Sample.C])
            (mkClusterInfo Sample.primary) []
            (Some [mkFederation Sample.primary "fed-nd-primary"])
            [Sample.member Sample.primary; Sample.member Sample.C]
            [Sample.member Sample.C] [Sample.cluster Sample.B]).
  - exact lenient_accepting.
  - reflexivity.
  - reflexivity.
  - reflexivity.
  - reflexivity.
  - reflexivity.
  - reflexivity.
  - left. discriminate.
Defined.
